(** * Thai national ID card reader: protocol engine and decoders

    A shallow embedding of the card protocol engine of [lol.py]
    ([SmartCardConnection], [SmartCardReader]) and of its two decoders
    ([thai2unicode], [format_date]), with the properties of the
    specification stated over it.

    Conventions.
    - A Python [int] is a [Z]; a list of ints (an APDU, an ATR, response
      data) is a [list Z].
    - A Python [str] is the list of its Unicode code points ([pystr]);
      exception messages, which are ASCII here, are kept as [string].
    - Python exceptions are values of [exn]; a call that can raise returns
      a [result].
    - The reader, the card and the channel are the outside world: a
      [device] is a state machine answering the five calls the program
      makes. The engine threads the device state together with the trace
      of the calls it made. *)

From Stdlib Require Import ZArith NArith List String Ascii Bool Lia.
Import ListNotations.

Local Open Scope Z_scope.

(* ================================================================== *)
(** ** Exceptions and results *)

(** [SmartCardError] is the exception class of the program; every other
    exception (raised by the smart-card library or by a built-in) is a
    [PyError] tagged with the name of its class. *)
Inductive exn : Type :=
| SmartCardError (msg : string)
| PyError (kind : string).

Inductive result (A : Type) : Type :=
| Ok (a : A)
| Raise (e : exn).

Arguments Ok {A} a.
Arguments Raise {A} e.

Definition is_SmartCardError (e : exn) : bool :=
  match e with
  | SmartCardError _ => true
  | PyError _ => false
  end.

(* ================================================================== *)
(** ** Python strings *)

Module PyStr.

Definition pystr : Type := list N.

(** An ASCII literal as a Python string. *)
Definition lit (s : string) : pystr :=
  map N_of_ascii (list_ascii_of_string s).

(** [str.isspace] on one character: the white-space table of CPython
    ([_PyUnicode_IsWhitespace]). *)
Definition isspace (c : N) : bool :=
  ((0x09 <=? c) && (c <=? 0x0D)
   || (0x1C <=? c) && (c <=? 0x20)
   || (c =? 0x85) || (c =? 0xA0) || (c =? 0x1680)
   || (0x2000 <=? c) && (c <=? 0x200A)
   || (c =? 0x2028) || (c =? 0x2029) || (c =? 0x202F)
   || (c =? 0x205F) || (c =? 0x3000))%N.

Fixpoint lstrip (s : pystr) : pystr :=
  match s with
  | [] => []
  | c :: t => if isspace c then lstrip t else s
  end.

Definition rstrip (s : pystr) : pystr := rev (lstrip (rev s)).

(** [s.strip()] *)
Definition strip (s : pystr) : pystr := rstrip (lstrip s).

(** [s.replace(a, b)] for one-character [a] and [b]. *)
Definition replace (a b : N) (s : pystr) : pystr :=
  map (fun c => if (c =? a)%N then b else c) s.

(** [s[i:j]] for [0 <= i <= j]. *)
Definition slice (i j : nat) (s : pystr) : pystr :=
  firstn (j - i) (skipn i s).

(** ['0'..'9'] *)
Definition is_ascii_digit (c : N) : bool :=
  ((0x30 <=? c) && (c <=? 0x39))%N.

End PyStr.

Import PyStr.

(* ================================================================== *)
(** ** Hexadecimal formatting *)

Definition hex_digit (d : N) : ascii :=
  match d with
  | 0 => "0" | 1 => "1" | 2 => "2" | 3 => "3"
  | 4 => "4" | 5 => "5" | 6 => "6" | 7 => "7"
  | 8 => "8" | 9 => "9" | 10 => "A" | 11 => "B"
  | 12 => "C" | 13 => "D" | 14 => "E" | _ => "F"
  end%N%char.

Fixpoint upper_hex_aux (fuel : nat) (n : N) (acc : string) : string :=
  match fuel with
  | O => acc
  | S f =>
      let acc' := String (hex_digit (n mod 16)) acc in
      if (n / 16 =? 0)%N then acc' else upper_hex_aux f (n / 16)%N acc'
  end.

(** Upper-case hexadecimal digits of [n], without leading zeros. *)
Definition upper_hex (n : N) : string :=
  upper_hex_aux (S (N.to_nat (N.log2 n))) n EmptyString.

Fixpoint zeros (k : nat) : string :=
  match k with
  | O => EmptyString
  | S k' => String "0"%char (zeros k')
  end.

(** Left padding with zeros up to [width] characters. *)
Definition zfill (width : nat) (s : string) : string :=
  (zeros (width - String.length s) ++ s)%string.

(** [f"{z:02X}"]: the sign counts in the width of 2. *)
Definition format_02X (z : Z) : string :=
  if z <? 0 then ("-" ++ zfill 1 (upper_hex (Z.to_N (- z))))%string
  else zfill 2 (upper_hex (Z.to_N z)).

(** ["%-0.2X" % z], the item format of [smartcard.util.toHexString]: a
    precision of two digits. The library formats each item [a] of the
    list as [(a + 256) % 256]. *)
Definition percent_02X (z : Z) : string :=
  if z <? 0 then ("-" ++ zfill 2 (upper_hex (Z.to_N (- z))))%string
  else zfill 2 (upper_hex (Z.to_N z)).

Definition hex_item (a : Z) : string := percent_02X ((a + 256) mod 256).

(** [smartcard.util.toHexString(data)]: the items, reduced modulo 256,
    formatted as above and separated by one space. *)
Fixpoint toHexString (data : list Z) : string :=
  match data with
  | [] => EmptyString
  | [b] => hex_item b
  | b :: rest => (hex_item b ++ " " ++ toHexString rest)%string
  end.

(* ================================================================== *)
(** ** Constants *)

Definition APDU_SELECT_COMMAND : list Z := [0x00; 0xA4; 0x04; 0x00; 0x08].
Definition APDU_APPLET_ID : list Z :=
  [0xA0; 0x00; 0x00; 0x00; 0x54; 0x48; 0x00; 0x01].
Definition SW_SUCCESS : list Z := [0x90; 0x00].

(** [[sw1, sw2] == SW_SUCCESS] *)
Definition is_SW_SUCCESS (sw1 sw2 : Z) : bool :=
  (sw1 =? 0x90) && (sw2 =? 0x00).

(* ================================================================== *)
(** ** Decoders *)

(** The decoding table of Python's [tis_620] codec: the bytes below
    [0xA0] decode to the code point of the same number, [0xA1..0xDA] and
    [0xDF..0xFB] to the Thai block [U+0E01..U+0E3A] and
    [U+0E3F..U+0E5B]; [0xA0], [0xDB..0xDE] and [0xFC..0xFF] are undefined
    (the table holds U+FFFE there). *)
Definition tis_620_decoding_table (b : Z) : option N :=
  if (0x00 <=? b) && (b <=? 0x9F) then Some (Z.to_N b)
  else if (0xA1 <=? b) && (b <=? 0xDA) then Some (Z.to_N (b + 0x0D60))
  else if (0xDF <=? b) && (b <=? 0xFB) then Some (Z.to_N (b + 0x0D60))
  else None.

(** U+FFFD REPLACEMENT CHARACTER *)
Definition REPLACEMENT : N := 0xFFFD%N.

(** [b.decode('tis-620', errors='replace')] *)
Definition decode_tis_620_replace (b : list Z) : pystr :=
  map (fun x => match tis_620_decoding_table x with
                | Some c => c
                | None => REPLACEMENT
                end) b.

Definition in_byte_range (x : Z) : bool := (0 <=? x) && (x <? 256).

(** [bytes(data)]: a [ValueError] unless every item is in [range(256)]. *)
Definition bytes_of (data : list Z) : result (list Z) :=
  if forallb in_byte_range data then Ok data else Raise (PyError "ValueError").

Definition HASH : N := 0x23%N.
Definition SPACE : N := 0x20%N.

Definition thai2unicode (data : list Z) : result pystr :=
  match bytes_of data with
  | Raise e => Raise e
  | Ok b => Ok (strip (replace HASH SPACE (decode_tis_620_replace b)))
  end.

Section FormatDate.

(** [str.isdigit] on one character is a property of the Unicode
    character database; the program only relies on it through
    [date_str.isdigit()]. *)
Variable isdigit_char : N -> bool.

(** [s.isdigit()]: at least one character, and all of them digits. *)
Definition isdigit (s : pystr) : bool :=
  match s with
  | [] => false
  | _ => forallb isdigit_char s
  end.

Definition format_date (date_str : pystr) : pystr :=
  let date_str := strip date_str in
  if (Nat.eqb (List.length date_str) 8) && isdigit date_str then
    let year := slice 0 4 date_str in
    let month := slice 4 6 date_str in
    let day := slice 6 8 date_str in
    day ++ lit "/" ++ month ++ lit "/" ++ year
  else date_str.

End FormatDate.

(* ================================================================== *)
(** ** The outside world: reader, channel and card *)

(** What a channel answers to [transmit]: response data and the two
    status bytes, or an exception of the smart-card library. *)
Inductive tx_reply : Type :=
| Response (data : list Z) (sw1 sw2 : Z)
| TxRaise (kind : string).

(** What a channel answers to [getATR]: the ATR, or an exception of the
    smart-card library. *)
Inductive atr_reply : Type :=
| ATR (atr : list Z)
| ATRRaise (kind : string).

(** The five calls the program makes on the smart-card library, as a
    state machine over a state [S] of the reader and the card.
    [createConnection], [connect] and [disconnect] answer [Some kind]
    when they raise. *)
Record device (S : Type) : Type := {
  dev_createConnection : S -> S * option string;
  dev_connect : S -> S * option string;
  dev_getATR : S -> atr_reply;
  dev_transmit : S -> list Z -> S * tx_reply;
  dev_disconnect : S -> S * option string
}.

Arguments dev_createConnection {S} d s.
Arguments dev_connect {S} d s.
Arguments dev_getATR {S} d s.
Arguments dev_transmit {S} d s apdu.
Arguments dev_disconnect {S} d s.

(** The calls made on the library, in the order they were made. *)
Inductive event : Type :=
| EvCreateConnection
| EvConnect
| EvGetATR (atr : list Z)
| EvGetATRRaised
| EvTransmit (apdu : list Z)
| EvDisconnect.

Record world (S : Type) : Type := {
  dstate : S;
  trace : list event
}.

Arguments dstate {S} w.
Arguments trace {S} w.

Definition init_world {S : Type} (s : S) : world S :=
  {| dstate := s; trace := [] |}.

Definition is_disconnect (e : event) : bool :=
  match e with
  | EvDisconnect => true
  | _ => false
  end.

Definition count_disconnects (t : list event) : nat :=
  List.length (filter is_disconnect t).

(* ================================================================== *)
(** ** Computations: state passing with exceptions *)

Definition M (S A : Type) : Type := world S -> world S * result A.

Definition ret {S A : Type} (a : A) : M S A := fun w => (w, Ok a).

Definition raise {S A : Type} (e : exn) : M S A := fun w => (w, Raise e).

Definition bind {S A B : Type} (m : M S A) (k : A -> M S B) : M S B :=
  fun w =>
    match m w with
    | (w', Ok a) => k a w'
    | (w', Raise e) => (w', Raise e)
    end.

Definition lift {S A : Type} (r : result A) : M S A := fun w => (w, r).

(** [try: m finally: cleanup]: an exception of the cleanup replaces the
    outcome of [m]. *)
Definition try_finally {S A : Type} (m : M S A) (cleanup : M S unit) : M S A :=
  fun w =>
    match m w with
    | (w', r) =>
        match cleanup w' with
        | (w'', Ok _) => (w'', r)
        | (w'', Raise e) => (w'', Raise e)
        end
    end.

Declare Scope engine_scope.
Delimit Scope engine_scope with engine.

Notation "x <- m ;; k" := (bind m (fun x => k))
  (at level 61, m at next level, right associativity) : engine_scope.
Notation "' p <- m ;; k" := (bind m (fun x => let p := x in k))
  (at level 61, p pattern, m at next level, right associativity) : engine_scope.
Notation "m ;;; k" := (bind m (fun _ => k))
  (at level 61, right associativity) : engine_scope.

Local Open Scope engine_scope.

(* ================================================================== *)
(** ** Card connection *)

(** The [conn] attribute is the channel itself, i.e. the device state;
    the object keeps the continuation prefix. *)
Record SmartCardConnection : Type := {
  get_response_apdu_prefix : list Z
}.

(** [SmartCardConnection.__init__] *)
Definition new_SmartCardConnection : SmartCardConnection :=
  {| get_response_apdu_prefix := [] |}.

Fixpoint list_eqb (a b : list Z) : bool :=
  match a, b with
  | [], [] => true
  | x :: a', y :: b' => (x =? y) && list_eqb a' b'
  | _, _ => false
  end.

(** The conditional expression of [connect], as a function of the ATR. *)
Definition prefix_of_atr (atr : list Z) : list Z :=
  if list_eqb (firstn 2 atr) [0x3B; 0x67]
  then [0x00; 0xC0; 0x00; 0x01]
  else [0x00; 0xC0; 0x00; 0x00].

Definition record_event {S : Type} (e : event) (w : world S) : list event :=
  trace w ++ [e].

Section Engine.

Context {S : Type}.
Variable dev : device S.

(** [reader.createConnection()] *)
Definition createConnection : M S unit :=
  fun w =>
    match dev_createConnection dev (dstate w) with
    | (s, None) =>
        ({| dstate := s; trace := record_event EvCreateConnection w |}, Ok tt)
    | (s, Some k) =>
        ({| dstate := s; trace := record_event EvCreateConnection w |},
         Raise (PyError k))
    end.

(** [self.conn.connect()] *)
Definition conn_connect : M S unit :=
  fun w =>
    match dev_connect dev (dstate w) with
    | (s, None) => ({| dstate := s; trace := record_event EvConnect w |}, Ok tt)
    | (s, Some k) =>
        ({| dstate := s; trace := record_event EvConnect w |}, Raise (PyError k))
    end.

(** [self.conn.getATR()] *)
Definition conn_getATR : M S (list Z) :=
  fun w =>
    match dev_getATR dev (dstate w) with
    | ATR atr =>
        ({| dstate := dstate w; trace := record_event (EvGetATR atr) w |}, Ok atr)
    | ATRRaise k =>
        ({| dstate := dstate w; trace := record_event EvGetATRRaised w |},
         Raise (PyError k))
    end.

Definition connect (self : SmartCardConnection) : M S SmartCardConnection :=
  conn_connect ;;;
  atr <- conn_getATR ;;
  ret {| get_response_apdu_prefix := prefix_of_atr atr |}.

Definition transmit (self : SmartCardConnection) (apdu : list Z)
  : M S (list Z * Z * Z) :=
  fun w =>
    match dev_transmit dev (dstate w) apdu with
    | (s, Response data sw1 sw2) =>
        ({| dstate := s; trace := record_event (EvTransmit apdu) w |},
         Ok (data, sw1, sw2))
    | (s, TxRaise k) =>
        ({| dstate := s; trace := record_event (EvTransmit apdu) w |},
         Raise (PyError k))
    end.

(** The connection object and the channel it wraps are never false. *)
Definition disconnect (self : SmartCardConnection) : M S unit :=
  fun w =>
    match dev_disconnect dev (dstate w) with
    | (s, None) => ({| dstate := s; trace := record_event EvDisconnect w |}, Ok tt)
    | (s, Some k) =>
        ({| dstate := s; trace := record_event EvDisconnect w |},
         Raise (PyError k))
    end.

End Engine.

(* ================================================================== *)
(** ** Record model and command catalog *)

Record IDCardData : Type := {
  cid : pystr;
  th_fullname : pystr;
  en_fullname : pystr;
  dob : pystr;
  gender : pystr;
  issuer : pystr;
  issue_date : pystr;
  expire_date : pystr;
  address : pystr;
  photo_bytes : option (list Z)
}.

(** [IDCardData()]: the defaults of the dataclass. *)
Definition new_IDCardData : IDCardData :=
  {| cid := []; th_fullname := []; en_fullname := []; dob := [];
     gender := []; issuer := []; issue_date := []; expire_date := [];
     address := []; photo_bytes := None |}.

(** [setattr(card_data, label, value)] on the nine text fields. Any other
    label would create an attribute outside the fields of the record. *)
Definition setattr (d : IDCardData) (label : string) (v : pystr) : IDCardData :=
  let upd c t e b g i s x a :=
    {| cid := c; th_fullname := t; en_fullname := e; dob := b; gender := g;
       issuer := i; issue_date := s; expire_date := x; address := a;
       photo_bytes := photo_bytes d |} in
  let '(c, t, e, b, g) :=
    (cid d, th_fullname d, en_fullname d, dob d, gender d) in
  let '(i, s, x, a) := (issuer d, issue_date d, expire_date d, address d) in
  if (label =? "cid")%string then upd v t e b g i s x a
  else if (label =? "th_fullname")%string then upd c v e b g i s x a
  else if (label =? "en_fullname")%string then upd c t v b g i s x a
  else if (label =? "dob")%string then upd c t e v g i s x a
  else if (label =? "gender")%string then upd c t e b v i s x a
  else if (label =? "issuer")%string then upd c t e b g v s x a
  else if (label =? "issue_date")%string then upd c t e b g i v x a
  else if (label =? "expire_date")%string then upd c t e b g i s v a
  else if (label =? "address")%string then upd c t e b g i s x v
  else d.

(** [card_data.photo_bytes = photo] *)
Definition set_photo_bytes (d : IDCardData) (photo : option (list Z)) : IDCardData :=
  {| cid := cid d; th_fullname := th_fullname d; en_fullname := en_fullname d;
     dob := dob d; gender := gender d; issuer := issuer d;
     issue_date := issue_date d; expire_date := expire_date d;
     address := address d; photo_bytes := photo |}.

Record APDUCommand : Type := {
  ins : list Z;
  label : string;
  decoder : list Z -> result pystr
}.

(** [APDUCommand(ins, label)], with the default decoder. *)
Definition mkAPDUCommand (i : list Z) (l : string) : APDUCommand :=
  {| ins := i; label := l; decoder := thai2unicode |}.

(** The [commands] list of [read_card]. *)
Definition commands : list APDUCommand :=
  [ mkAPDUCommand [0x80; 0xB0; 0x00; 0x04; 0x02; 0x00; 0x0D] "cid";
    mkAPDUCommand [0x80; 0xB0; 0x00; 0x11; 0x02; 0x00; 0x64] "th_fullname";
    mkAPDUCommand [0x80; 0xB0; 0x00; 0x75; 0x02; 0x00; 0x64] "en_fullname";
    mkAPDUCommand [0x80; 0xB0; 0x00; 0xD9; 0x02; 0x00; 0x08] "dob";
    mkAPDUCommand [0x80; 0xB0; 0x00; 0xE1; 0x02; 0x00; 0x01] "gender";
    mkAPDUCommand [0x80; 0xB0; 0x00; 0xF6; 0x02; 0x00; 0x64] "issuer";
    mkAPDUCommand [0x80; 0xB0; 0x01; 0x67; 0x02; 0x00; 0x08] "issue_date";
    mkAPDUCommand [0x80; 0xB0; 0x01; 0x6F; 0x02; 0x00; 0x08] "expire_date";
    mkAPDUCommand [0x80; 0xB0; 0x15; 0x79; 0x02; 0x00; 0x64] "address" ].

(** [current_cmd] of the photo loop for segment index [i]. *)
Definition photo_segment_cmd (i : Z) : list Z :=
  let p1_byte := Z.land i 0xFF in
  let p2_byte := Z.land (0x7C - i) 0xFF in
  [0x80; 0xB0; p1_byte; p2_byte; 0x02; 0x00; 0xFF].

(** [range(1, segments + 1)] *)
Definition segment_indices (segments : nat) : list Z :=
  map Z.of_nat (seq 1 segments).

(** [photo_data.extend(segment_data)] on a [bytearray]: a [ValueError],
    and no change, unless every item is in [range(256)]. *)
Definition bytearray_extend (photo_data segment_data : list Z)
  : result (list Z) :=
  if forallb in_byte_range segment_data then Ok (photo_data ++ segment_data)
  else Raise (PyError "ValueError").

(** [l[-1]]: an [IndexError] on the empty list. *)
Definition last_item (l : list Z) : result Z :=
  match rev l with
  | [] => Raise (PyError "IndexError")
  | x :: _ => Ok x
  end.

(** The messages of the protocol errors. *)
Definition status_text (sw1 sw2 : Z) : string :=
  (format_02X sw1 ++ " " ++ format_02X sw2)%string.

Definition command_failed_msg (command_apdu : list Z) (sw1 sw2 : Z) : string :=
  ("Command failed (" ++ toHexString command_apdu ++ "): "
     ++ status_text sw1 sw2)%string.

Definition get_response_failed_msg (get_response_apdu : list Z) (sw1 sw2 : Z)
  : string :=
  ("GET RESPONSE failed (" ++ toHexString get_response_apdu ++ "): "
     ++ status_text sw1 sw2)%string.

Definition select_failed_msg (sw1 sw2 : Z) : string :=
  ("Failed to select applet: " ++ status_text sw1 sw2)%string.

Definition select_get_response_failed_msg (sw1 sw2 : Z) : string :=
  ("Failed to select applet (GET RESPONSE failed): "
     ++ status_text sw1 sw2)%string.

(* ================================================================== *)
(** ** Card reader *)

Section Reader.

Context {S : Type}.
Variable dev : device S.

Definition _get_data_with_get_response
  (conn : SmartCardConnection) (command_apdu : list Z) : M S (list Z) :=
  '(_, sw1, sw2) <- transmit dev conn command_apdu ;;
  expected_len <- lift (last_item command_apdu) ;;
  expected_len <-
    (if is_SW_SUCCESS sw1 sw2 then ret expected_len
     else if sw1 =? 0x61 then ret sw2
     else raise (SmartCardError (command_failed_msg command_apdu sw1 sw2))) ;;
  let get_response_apdu := get_response_apdu_prefix conn ++ [expected_len] in
  '(data, sw1, sw2) <- transmit dev conn get_response_apdu ;;
  if negb (is_SW_SUCCESS sw1 sw2)
  then raise (SmartCardError (get_response_failed_msg get_response_apdu sw1 sw2))
  else ret data.

Definition _read_field (conn : SmartCardConnection) (cmd : APDUCommand)
  : M S pystr :=
  data <- _get_data_with_get_response conn (ins cmd) ;;
  lift (decoder cmd data).

(** The body of the [try] statement of the photo loop for the segment
    index [i]: the read of the segment, then the append to the buffer. *)
Definition photo_segment_try (conn : SmartCardConnection) (i : Z)
  (photo_data : list Z) : M S (list Z) :=
  let current_cmd := photo_segment_cmd i in
  segment_data <- _get_data_with_get_response conn current_cmd ;;
  lift (bytearray_extend photo_data segment_data).

(** The [for] loop of [_read_photo] over the remaining indices; a
    [SmartCardError] raised in the [try] statement leaves the loop, any
    other exception leaves the function. *)
Fixpoint photo_loop (conn : SmartCardConnection) (indices : list Z)
  (photo_data : list Z) : M S (list Z) :=
  match indices with
  | [] => ret photo_data
  | i :: rest =>
      fun w =>
        match photo_segment_try conn i photo_data w with
        | (w', Ok photo_data') => photo_loop conn rest photo_data' w'
        | (w', Raise (SmartCardError _)) => (w', Ok photo_data)
        | (w', Raise e) => (w', Raise e)
        end
  end.

Definition _read_photo (conn : SmartCardConnection) (segments : nat)
  : M S (option (list Z)) :=
  photo_data <- photo_loop conn (segment_indices segments) [] ;;
  if (List.length photo_data <? 1024)%nat then ret None
  else ret (Some photo_data).

(** Step 1 of [read_card]: select the applet. *)
Definition select_applet (conn : SmartCardConnection) : M S unit :=
  let apdu := APDU_SELECT_COMMAND ++ APDU_APPLET_ID in
  '(_, sw1, sw2) <- transmit dev conn apdu ;;
  if is_SW_SUCCESS sw1 sw2 then ret tt
  else if sw1 =? 0x61 then
    let get_response_apdu := get_response_apdu_prefix conn ++ [sw2] in
    '(_, res_sw1, res_sw2) <- transmit dev conn get_response_apdu ;;
    if negb (is_SW_SUCCESS res_sw1 res_sw2)
    then raise (SmartCardError (select_get_response_failed_msg res_sw1 res_sw2))
    else ret tt
  else raise (SmartCardError (select_failed_msg sw1 sw2)).

(** Step 2 of [read_card]: the loop over the catalog. *)
Fixpoint read_fields (conn : SmartCardConnection) (cmds : list APDUCommand)
  (card_data : IDCardData) : M S IDCardData :=
  match cmds with
  | [] => ret card_data
  | cmd :: rest =>
      result <- _read_field conn cmd ;;
      read_fields conn rest (setattr card_data (label cmd) result)
  end.

(** The statements of the [try] block after [conn] is bound, up to and
    including the selection of the applet. *)
Definition open_session (conn : SmartCardConnection) : M S SmartCardConnection :=
  conn <- connect dev conn ;;
  select_applet conn ;;;
  ret conn.

(** The [try] block of [read_card] after [conn] is bound. *)
Definition read_card_body (conn : SmartCardConnection) : M S IDCardData :=
  conn <- open_session conn ;;
  card_data <- read_fields conn commands new_IDCardData ;;
  photo <- _read_photo conn 20 ;;
  ret (set_photo_bytes card_data photo).

(** [conn] is still [None] when [createConnection] raises, and the
    [finally] clause then does nothing. *)
Definition read_card : M S IDCardData :=
  fun w =>
    match createConnection dev w with
    | (w', Raise e) => (w', Raise e)
    | (w', Ok _) =>
        let conn := new_SmartCardConnection in
        try_finally (read_card_body conn) (disconnect dev conn) w'
    end.

End Reader.

(* ================================================================== *)
(** ** A simulated channel *)

(** A scripted channel: the replies to the successive transmissions, in
    order; transmitting past the end of the script raises. *)
Record sim : Type := {
  sim_atr : list Z;
  sim_script : list tx_reply
}.

Definition sim_device : device sim :=
  {| dev_createConnection := fun s => (s, None);
     dev_connect := fun s => (s, None);
     dev_getATR := fun s => ATR (sim_atr s);
     dev_transmit := fun s _ =>
       match sim_script s with
       | [] => (s, TxRaise "NoCardException")
       | r :: t => ({| sim_atr := sim_atr s; sim_script := t |}, r)
       end;
     dev_disconnect := fun s => (s, None) |}.

(** The same channel, but one whose [disconnect] raises. *)
Definition sim_device_stuck : device sim :=
  {| dev_createConnection := dev_createConnection sim_device;
     dev_connect := dev_connect sim_device;
     dev_getATR := dev_getATR sim_device;
     dev_transmit := dev_transmit sim_device;
     dev_disconnect := fun s => (s, Some "CardConnectionException"%string) |}.

Definition sim_start (atr : list Z) (script : list tx_reply) : world sim :=
  init_world {| sim_atr := atr; sim_script := script |}.

(** The replies of a card that answers the applet selection and each of
    the nine field reads (more-data, then [data] with success). *)
Definition sim_fields_script (data : list Z) : list tx_reply :=
  Response [] 0x90 0x00
  :: List.concat (repeat [Response [] 0x61 0x03; Response data 0x90 0x00] 9).

(** Five photo segments of 255 bytes each (segment [i] filled with the
    byte [i]) and a failure at the sixth. *)
Definition sim_five_segments : list (list Z) :=
  map (fun i => repeat i 255) [1; 2; 3; 4; 5].

Definition sim_photo_script : list tx_reply :=
  List.concat
    (map (fun d => [Response [] 0x90 0x00; Response d 0x90 0x00])
       sim_five_segments)
  ++ [Response [] 0x6A 0x82].

(* ================================================================== *)
(** ** Vocabulary of the statements *)

(** The world after the channel answered the transmission of [apdu] and
    moved to state [s]. *)
Definition after_transmit {S : Type} (w : world S) (s : S) (apdu : list Z)
  : world S :=
  {| dstate := s; trace := trace w ++ [EvTransmit apdu] |}.

(** The world after [disconnect] was called. *)
Definition after_disconnect {S : Type} (dev : device S) (w : world S) : world S :=
  {| dstate := fst (dev_disconnect dev (dstate w));
     trace := trace w ++ [EvDisconnect] |}.

(** The outcome of [read_card] when its [try] block ended with [r] in
    world [w]: the [finally] clause calls [disconnect], whose exception,
    if it raises, replaces [r]. *)
Definition finally_outcome {S A : Type} (dev : device S) (w : world S)
  (r : result A) : result A :=
  match snd (dev_disconnect dev (dstate w)) with
  | None => r
  | Some kind => Raise (PyError kind)
  end.

(** A status word that is neither success nor more-data. *)
Definition bad_status (sw1 sw2 : Z) : Prop :=
  is_SW_SUCCESS sw1 sw2 = false /\ sw1 <> 0x61.

(** The length to ask for in the continuation, in the words of the
    specification: the length [L] of the command on success, [n] on
    more-data [61 n], none on a failure. *)
Definition spec_continuation_length (L sw1 sw2 : Z) : option Z :=
  if is_SW_SUCCESS sw1 sw2 then Some L
  else if sw1 =? 0x61 then Some sw2
  else None.

(** The read of [command_apdu] in world [w] meets a status word that is
    neither success nor more-data, at the command itself or at its
    continuation read. *)
Definition status_fails_read {S : Type} (dev : device S)
  (conn : SmartCardConnection) (command_apdu : list Z) (w : world S) : Prop :=
  exists s1 d sw1 sw2,
    dev_transmit dev (dstate w) command_apdu = (s1, Response d sw1 sw2)
    /\ (bad_status sw1 sw2
        \/ exists L len s2 d' r1 r2,
            last_item command_apdu = Ok L
            /\ spec_continuation_length L sw1 sw2 = Some len
            /\ dev_transmit dev s1 (get_response_apdu_prefix conn ++ [len])
               = (s2, Response d' r1 r2)
            /\ bad_status r1 r2).

(** [segments_ok dev conn i ds w w']: from world [w], the reads of the
    photo segments [i], [i+1], ... succeed one after the other and return
    the lists of bytes [ds], leaving the world [w']. *)
Inductive segments_ok {S : Type} (dev : device S) (conn : SmartCardConnection)
  : nat -> list (list Z) -> world S -> world S -> Prop :=
| segments_ok_nil (i : nat) (w : world S) : segments_ok dev conn i [] w w
| segments_ok_cons (i : nat) (d : list Z) (ds : list (list Z))
    (w w1 w2 : world S) :
    _get_data_with_get_response dev conn (photo_segment_cmd (Z.of_nat i)) w
    = (w1, Ok d) ->
    forallb in_byte_range d = true ->
    segments_ok dev conn (Datatypes.S i) ds w1 w2 ->
    segments_ok dev conn i (d :: ds) w w2.


(** Any event but the release of the connection. *)
Definition not_disconnect (e : event) : Prop := is_disconnect e = false.

(** [emits P m]: whatever [m] does, it only adds events satisfying [P] at
    the end of the trace. *)
Definition emits {S A : Type} (P : event -> Prop) (m : M S A) : Prop :=
  forall w w' r, m w = (w', r) ->
    exists evs, trace w' = trace w ++ evs /\ Forall P evs.

(** The value of an upper-case hexadecimal digit, and of a numeral of
    two such digits. *)
Definition unhex_digit (c : ascii) : Z :=
  let n := Z.of_N (N_of_ascii c) in
  if n <? 0x3A then n - 0x30 else n - 0x37.

Definition unhex2 (s : string) : Z :=
  match s with
  | String a (String b EmptyString) => 16 * unhex_digit a + unhex_digit b
  | _ => -1
  end.

Definition two_chars (s : string) : bool := Nat.eqb (String.length s) 2.

(** Whether [s] neither starts nor ends with white space. *)
Definition no_outer_space (s : pystr) : bool :=
  match s, rev s with
  | c :: _, d :: _ => negb (isspace c) && negb (isspace d)
  | _, _ => true
  end.

(** Exactly eight ASCII digits. *)
Definition eight_ascii_digits (s : pystr) : bool :=
  Nat.eqb (List.length s) 8 && forallb is_ascii_digit s.

(* ================================================================== *)
(** ** Vocabulary of the further properties *)

Definition is_transmit (e : event) : bool :=
  match e with
  | EvTransmit _ => true
  | _ => false
  end.

Definition transmit_event (e : event) : Prop := is_transmit e = true.

Definition count_transmits (t : list event) : nat :=
  List.length (filter is_transmit t).

(** [adds_at_most n m]: whatever [m] does, it adds at most [n] events at
    the end of the trace, all of them transmissions. *)
Definition adds_at_most {S A : Type} (n : nat) (m : M S A) : Prop :=
  forall w w' r, m w = (w', r) ->
    exists evs, trace w' = trace w ++ evs
                /\ Forall transmit_event evs
                /\ (List.length evs <= n)%nat.

(** A text without ['#'] that neither starts nor ends with white space. *)
Definition clean_text (s : pystr) : Prop :=
  ~ In HASH s /\ no_outer_space s = true.

Definition clean_record (r : IDCardData) : Prop :=
  clean_text (cid r) /\ clean_text (th_fullname r) /\ clean_text (en_fullname r)
  /\ clean_text (dob r) /\ clean_text (gender r) /\ clean_text (issuer r)
  /\ clean_text (issue_date r) /\ clean_text (expire_date r)
  /\ clean_text (address r).

(** [fields_ok dev conn cmds outs w w']: from world [w], the reads of the
    fields [cmds] succeed one after the other and decode to the texts
    [outs], leaving the world [w']. *)
Inductive fields_ok {S : Type} (dev : device S) (conn : SmartCardConnection)
  : list APDUCommand -> list pystr -> world S -> world S -> Prop :=
| fields_ok_nil (w : world S) : fields_ok dev conn [] [] w w
| fields_ok_cons (cmd : APDUCommand) (cmds : list APDUCommand) (out : pystr)
    (outs : list pystr) (w w1 w2 : world S) :
    _read_field dev conn cmd w = (w1, Ok out) ->
    fields_ok dev conn cmds outs w1 w2 ->
    fields_ok dev conn (cmd :: cmds) (out :: outs) w w2.

(** Printable ASCII other than ['#']: the bytes [0x21..0x7E] less [0x23]. *)
Definition plain_ascii (b : Z) : bool :=
  (0x21 <=? b) && (b <=? 0x7E) && negb (b =? 0x23).

(** The result of [format_date] on a stripped string. *)
Definition reformatted (s : pystr) : pystr :=
  slice 6 8 s ++ lit "/" ++ slice 4 6 s ++ lit "/" ++ slice 0 4 s.

(** The bytes of TIS-620 that stand for Thai characters. *)
Definition thai_byte (b : Z) : bool :=
  (0xA1 <=? b) && (b <=? 0xDA) || (0xDF <=? b) && (b <=? 0xFB).

(** A card that answers the applet selection, each of the nine field
    reads with the byte of its rank, and each of the twenty photo
    segments with sixty bytes. *)
Definition sim_full_script : list tx_reply :=
  Response [] 0x90 0x00
  :: List.concat
       (map (fun b => [Response [] 0x61 0x01; Response [b] 0x90 0x00])
          [0x31; 0x32; 0x33; 0x34; 0x35; 0x36; 0x37; 0x38; 0x39])
  ++ List.concat
       (map (fun i => [Response [] 0x61 0x3C; Response (repeat i 60) 0x90 0x00])
          (segment_indices 20)).

(* ================================================================== *)
(** * Properties of the decoders *)

Section StripFacts.

Lemma lstrip_split (s : pystr) :
  exists l, s = l ++ lstrip s /\ forallb isspace l = true.
Proof.
  induction s as [|c t IH]; simpl.
  - exists []; split; reflexivity.
  - destruct (isspace c) eqn:Hc.
    + destruct IH as [l [Heq Hl]].
      exists (c :: l); simpl; rewrite Hc, Hl; split; [congruence | reflexivity].
    + exists []; split; reflexivity.
Qed.

Lemma lstrip_head (s : pystr) (c : N) (t : pystr) :
  lstrip s = c :: t -> isspace c = false.
Proof.
  induction s as [|a s' IH]; simpl; [discriminate|].
  destruct (isspace a) eqn:Ha; [exact IH|].
  intros H; injection H as -> _; exact Ha.
Qed.

Lemma lstrip_fix (s : pystr) :
  match s with c :: _ => isspace c = false | [] => True end -> lstrip s = s.
Proof. destruct s as [|c t]; simpl; [reflexivity|]; intros ->; reflexivity. Qed.

Lemma forallb_rev {A : Type} (p : A -> bool) (l : list A) :
  forallb p (rev l) = forallb p l.
Proof.
  induction l as [|a l IH]; simpl; [reflexivity|].
  rewrite forallb_app, IH; simpl. rewrite andb_true_r, andb_comm; reflexivity.
Qed.

Lemma rstrip_split (s : pystr) :
  exists r, s = rstrip s ++ r /\ forallb isspace r = true.
Proof.
  unfold rstrip. destruct (lstrip_split (rev s)) as [l [Heq Hl]].
  exists (rev l); split.
  - rewrite <- rev_app_distr, <- Heq, rev_involutive; reflexivity.
  - rewrite forallb_rev; exact Hl.
Qed.

Lemma rstrip_last (s t : pystr) (c : N) :
  rstrip s = t ++ [c] -> isspace c = false.
Proof.
  unfold rstrip; intros H.
  apply (f_equal (@rev N)) in H.
  rewrite rev_involutive, rev_app_distr in H; simpl in H.
  exact (lstrip_head _ _ _ H).
Qed.

Lemma strip_split (s : pystr) :
  exists l r, s = l ++ strip s ++ r
              /\ forallb isspace l = true /\ forallb isspace r = true.
Proof.
  unfold strip.
  destruct (lstrip_split s) as [l [Hl1 Hl2]].
  destruct (rstrip_split (lstrip s)) as [r [Hr1 Hr2]].
  exists l, r; repeat split; try assumption.
  rewrite <- Hr1; exact Hl1.
Qed.

Lemma strip_head (s : pystr) (c : N) (t : pystr) :
  strip s = c :: t -> isspace c = false.
Proof.
  unfold strip; intros H.
  destruct (rstrip_split (lstrip s)) as [r [Hr _]].
  rewrite H in Hr; simpl in Hr.
  exact (lstrip_head _ _ _ Hr).
Qed.

Lemma strip_last (s t : pystr) (c : N) :
  strip s = t ++ [c] -> isspace c = false.
Proof. unfold strip; apply rstrip_last. Qed.

Lemma strip_fix (s : pystr) : no_outer_space s = true -> strip s = s.
Proof.
  unfold no_outer_space, strip, rstrip; intros H.
  destruct s as [|c t]; [reflexivity|].
  destruct (rev (c :: t)) as [|d u] eqn:Hrev.
  - apply (f_equal (@List.length N)) in Hrev.
    rewrite length_rev in Hrev; discriminate.
  - apply andb_true_iff in H; destruct H as [Hc Hd].
    apply negb_true_iff in Hc, Hd.
    rewrite (lstrip_fix (c :: t) Hc), Hrev, (lstrip_fix (d :: u) Hd).
    rewrite <- Hrev; apply rev_involutive.
Qed.

Lemma ascii_digit_not_space (c : N) :
  is_ascii_digit c = true -> isspace c = false.
Proof.
  unfold is_ascii_digit, isspace; intros H.
  apply andb_true_iff in H; destruct H as [H1 H2].
  apply N.leb_le in H1, H2.
  repeat (apply orb_false_iff; split);
    try (apply andb_false_iff);
    try (apply N.eqb_neq; lia);
    try (left; apply N.leb_gt; lia);
    try (right; apply N.leb_gt; lia).
Qed.

End StripFacts.

Section DecoderFacts.

Lemma bytes_of_in_range (data : list Z) :
  Forall (fun b => 0 <= b < 256) data -> bytes_of data = Ok data.
Proof.
  intros H; unfold bytes_of.
  replace (forallb in_byte_range data) with true; [reflexivity|].
  symmetry; apply forallb_forall; intros x Hx.
  rewrite Forall_forall in H; specialize (H x Hx).
  unfold in_byte_range; apply andb_true_iff; split;
    [apply Z.leb_le | apply Z.ltb_lt]; lia.
Qed.

Lemma replace_removes (a b : N) (s : pystr) :
  a <> b -> ~ In a (replace a b s).
Proof.
  intros Hab Hin; unfold replace in Hin.
  apply in_map_iff in Hin; destruct Hin as [c [Hc _]].
  destruct (N.eqb_spec c a); congruence.
Qed.

Lemma isdigit_of_ascii_digits (isdigit_char : N -> bool) (s : pystr) :
  (forall c, is_ascii_digit c = true -> isdigit_char c = true) ->
  s <> [] -> forallb is_ascii_digit s = true -> isdigit isdigit_char s = true.
Proof.
  intros Hd Hne Hs; destruct s as [|c t]; [congruence|].
  unfold isdigit; apply forallb_forall; intros x Hx.
  apply Hd; rewrite forallb_forall in Hs; exact (Hs x Hx).
Qed.

Lemma eight_ascii_digits_shape (s : pystr) :
  eight_ascii_digits s = true ->
  exists y1 y2 y3 y4 m1 m2 d1 d2, s = [y1; y2; y3; y4; m1; m2; d1; d2].
Proof.
  unfold eight_ascii_digits; intros H.
  apply andb_true_iff in H; destruct H as [Hlen _].
  apply Nat.eqb_eq in Hlen.
  do 8 (destruct s as [|? s]; [discriminate|]).
  destruct s; [|discriminate].
  do 8 eexists; reflexivity.
Qed.

End DecoderFacts.

(** C9. On every sequence of bytes the legacy-text decoder returns (it
    does not raise). Every byte is decoded to one character, the one the
    TIS-620 table gives or U+FFFD where the table gives none. The result
    is that decoded text with each ['#'] turned into a space, less a run
    of white space at each end: it holds no ['#'] and neither starts nor
    ends with a white-space character. *)
Theorem thai2unicode_decodes_cleans_and_trims (data : list Z) :
  Forall (fun b => 0 <= b < 256) data ->
  exists out,
    thai2unicode data = Ok out
    /\ List.length (decode_tis_620_replace data) = List.length data
    /\ (forall i b, nth_error data i = Some b ->
          nth_error (decode_tis_620_replace data) i =
          Some (match tis_620_decoding_table b with
                | Some c => c
                | None => REPLACEMENT
                end))
    /\ (exists l r,
          replace HASH SPACE (decode_tis_620_replace data) = l ++ out ++ r
          /\ forallb isspace l = true /\ forallb isspace r = true)
    /\ ~ In HASH out
    /\ (forall c t, out = c :: t -> isspace c = false)
    /\ (forall t c, out = t ++ [c] -> isspace c = false).
Proof.
  intros Hrange.
  set (txt := replace HASH SPACE (decode_tis_620_replace data)).
  exists (strip txt).
  split; [unfold thai2unicode; rewrite (bytes_of_in_range _ Hrange); reflexivity|].
  split; [apply length_map|].
  split.
  { intros i b Hb; unfold decode_tis_620_replace.
    rewrite nth_error_map, Hb; reflexivity. }
  pose proof (strip_split txt) as [l [r [Heq [Hl Hr]]]].
  split; [exists l, r; auto|].
  split.
  { intros Hin.
    apply (replace_removes HASH SPACE (decode_tis_620_replace data));
      [discriminate|].
    fold txt; rewrite Heq.
    apply in_or_app; right; apply in_or_app; left; exact Hin. }
  split.
  - intros c t Hout; exact (strip_head _ _ _ Hout).
  - intros t c Hout; exact (strip_last _ _ _ Hout).
Qed.

Lemma thai2unicode_decodes_cleans_and_trims_witness :
  exists out,
    thai2unicode [0x20; 0x41; 0x23; 0xA1; 0xDB; 0x23; 0x20] = Ok out
    /\ out = [0x41; 0x20; 0x0E01; 0xFFFD]%N.
Proof.
  destruct (thai2unicode_decodes_cleans_and_trims
              [0x20; 0x41; 0x23; 0xA1; 0xDB; 0x23; 0x20]) as [out [Hout _]].
  - repeat constructor; lia.
  - exists out; split; [exact Hout|].
    vm_compute in Hout; injection Hout as <-; reflexivity.
Defined.

(** C8. On a string of exactly eight ASCII digits [YYYYMMDD] the date
    formatter returns [DD/MM/YYYY] made of the same digits: the year is
    not converted. ["25500907"] gives ["07/09/2550"]. *)
Theorem format_date_eight_digits (isdigit_char : N -> bool) (s : pystr) :
  (forall c, is_ascii_digit c = true -> isdigit_char c = true) ->
  eight_ascii_digits s = true ->
  exists y1 y2 y3 y4 m1 m2 d1 d2,
    s = [y1; y2; y3; y4; m1; m2; d1; d2]
    /\ format_date isdigit_char s =
       [d1; d2] ++ lit "/" ++ [m1; m2] ++ lit "/" ++ [y1; y2; y3; y4].
Proof.
  intros Hd Hs.
  destruct (eight_ascii_digits_shape s Hs)
    as (y1 & y2 & y3 & y4 & m1 & m2 & d1 & d2 & ->).
  exists y1, y2, y3, y4, m1, m2, d1, d2; split; [reflexivity|].
  unfold eight_ascii_digits in Hs.
  apply andb_true_iff in Hs; destruct Hs as [_ Hall].
  assert (Hstrip : strip [y1; y2; y3; y4; m1; m2; d1; d2]
                   = [y1; y2; y3; y4; m1; m2; d1; d2]).
  { apply strip_fix; unfold no_outer_space; simpl.
    simpl in Hall.
    repeat (apply andb_true_iff in Hall; destruct Hall as [? Hall]).
    rewrite (ascii_digit_not_space y1), (ascii_digit_not_space d2) by assumption.
    reflexivity. }
  unfold format_date; rewrite Hstrip.
  rewrite (isdigit_of_ascii_digits isdigit_char _ Hd) by (congruence || exact Hall).
  reflexivity.
Qed.

Lemma format_date_eight_digits_witness :
  format_date is_ascii_digit (lit "25500907") = lit "07/09/2550".
Proof.
  destruct (format_date_eight_digits is_ascii_digit (lit "25500907"))
    as (y1 & y2 & y3 & y4 & m1 & m2 & d1 & d2 & Hs & Hf).
  - intros c Hc; exact Hc.
  - reflexivity.
  - rewrite Hf; injection Hs as <- <- <- <- <- <- <- <-; reflexivity.
Defined.

(** C7, as stated, fails: ["25500907 "] (a date followed by a space) is
    not a string of exactly eight ASCII digits, and still the formatter
    does not return it unchanged. *)
Lemma format_date_reformats_padded_date :
  eight_ascii_digits (lit "25500907 ") = false
  /\ forall isdigit_char,
      (forall c, is_ascii_digit c = true -> isdigit_char c = true) ->
      format_date isdigit_char (lit "25500907 ") = lit "07/09/2550"
      /\ format_date isdigit_char (lit "25500907 ") <> lit "25500907 ".
Proof.
  split; [reflexivity|].
  intros isdigit_char Hd.
  assert (H : format_date isdigit_char (lit "25500907 ") = lit "07/09/2550").
  { unfold format_date.
    change (strip (lit "25500907 ")) with (lit "25500907").
    rewrite (isdigit_of_ascii_digits isdigit_char _ Hd);
      [reflexivity | discriminate | reflexivity]. }
  split; [exact H | rewrite H; discriminate].
Qed.

(** C7, amended. The formatter first strips the white space around its
    input. When what is left is not eight characters that are all digits
    for [str.isdigit], it returns what is left: the input itself when the
    input neither starts nor ends with white space. *)
Theorem format_date_keeps_other_strings (isdigit_char : N -> bool) (s : pystr) :
  Nat.eqb (List.length (strip s)) 8 && isdigit isdigit_char (strip s) = false ->
  format_date isdigit_char s = strip s
  /\ (no_outer_space s = true -> format_date isdigit_char s = s).
Proof.
  intros H; unfold format_date; rewrite H.
  split; [reflexivity|].
  intros Hs; apply strip_fix; exact Hs.
Qed.

Lemma format_date_keeps_other_strings_witness :
  format_date is_ascii_digit (lit "abc") = lit "abc".
Proof.
  apply (format_date_keeps_other_strings is_ascii_digit (lit "abc"));
    reflexivity.
Defined.

(* ================================================================== *)
(** * Properties of the status text *)

Section HexFacts.

Lemma format_02X_byte_table :
  forallb (fun n => let z := Z.of_nat n in
                    two_chars (format_02X z) && (unhex2 (format_02X z) =? z))
          (seq 0 256) = true.
Proof. vm_compute; reflexivity. Qed.

Lemma format_02X_byte (z : Z) :
  0 <= z < 256 ->
  String.length (format_02X z) = 2%nat /\ unhex2 (format_02X z) = z.
Proof.
  intros Hz.
  pose proof format_02X_byte_table as H.
  rewrite forallb_forall in H.
  specialize (H (Z.to_nat z)).
  rewrite Z2Nat.id in H by lia.
  assert (Hin : In (Z.to_nat z) (seq 0 256)) by (apply in_seq; lia).
  apply H in Hin; cbv zeta in Hin.
  apply andb_true_iff in Hin; destruct Hin as [H2 Heq].
  split; [apply Nat.eqb_eq; exact H2 | apply Z.eqb_eq; exact Heq].
Qed.

Lemma format_02X_inj (a b : Z) :
  0 <= a < 256 -> 0 <= b < 256 -> format_02X a = format_02X b -> a = b.
Proof.
  intros Ha Hb Heq.
  destruct (format_02X_byte a Ha) as [_ <-].
  destruct (format_02X_byte b Hb) as [_ <-].
  rewrite Heq; reflexivity.
Qed.

Lemma append_cancel_l (p x y : string) :
  (p ++ x)%string = (p ++ y)%string -> x = y.
Proof.
  induction p as [|c p IH]; simpl; intros H; [exact H|].
  injection H as H; exact (IH H).
Qed.

Lemma status_text_inj (a b a' b' : Z) :
  0 <= a < 256 -> 0 <= b < 256 -> 0 <= a' < 256 -> 0 <= b' < 256 ->
  status_text a b = status_text a' b' -> a = a' /\ b = b'.
Proof.
  intros Ha Hb Ha' Hb' H; unfold status_text in H.
  destruct (format_02X_byte a Ha) as [La _].
  destruct (format_02X_byte a' Ha') as [La' _].
  assert (Hsplit : forall x y u v : string,
             String.length x = 2%nat -> String.length y = 2%nat ->
             (x ++ u)%string = (y ++ v)%string -> x = y /\ u = v).
  { intros x y u v Hx Hy Hxy.
    destruct x as [|x1 [|x2 [|? ?]]]; try discriminate.
    destruct y as [|y1 [|y2 [|? ?]]]; try discriminate.
    simpl in Hxy; injection Hxy as -> -> ->; split; reflexivity. }
  destruct (Hsplit _ _ _ _ La La' H) as [H1 H2].
  simpl in H2; injection H2 as H2.
  split; apply format_02X_inj; assumption.
Qed.

End HexFacts.

(* ================================================================== *)
(** * Properties of the protocol engine *)

Section EngineFacts.

Context {S : Type}.
Variable dev : device S.

Lemma transmit_response (conn : SmartCardConnection) (apdu : list Z)
  (w : world S) (s : S) (d : list Z) (sw1 sw2 : Z) :
  dev_transmit dev (dstate w) apdu = (s, Response d sw1 sw2) ->
  transmit dev conn apdu w = (after_transmit w s apdu, Ok (d, sw1, sw2)).
Proof. intros H; unfold transmit; rewrite H; reflexivity. Qed.

Lemma transmit_raises (conn : SmartCardConnection) (apdu : list Z)
  (w : world S) (s : S) (k : string) :
  dev_transmit dev (dstate w) apdu = (s, TxRaise k) ->
  transmit dev conn apdu w = (after_transmit w s apdu, Raise (PyError k)).
Proof. intros H; unfold transmit; rewrite H; reflexivity. Qed.

Lemma last_item_app (body : list Z) (L : Z) : last_item (body ++ [L]) = Ok L.
Proof. unfold last_item; rewrite rev_app_distr; reflexivity. Qed.

Lemma last_item_inv (l : list Z) (L : Z) :
  last_item l = Ok L -> exists body, l = body ++ [L].
Proof.
  unfold last_item; intros H.
  destruct (rev l) as [|x t] eqn:Hrev; [discriminate|].
  injection H as ->.
  exists (rev t).
  rewrite <- (rev_involutive l), Hrev; reflexivity.
Qed.

(** The run of the continuation-read routine when the command meets a
    status word that is neither success nor more-data. *)
Lemma get_data_bad_status (conn : SmartCardConnection) (body : list Z) (L : Z)
  (w : world S) (s1 : S) (d : list Z) (sw1 sw2 : Z) :
  dev_transmit dev (dstate w) (body ++ [L]) = (s1, Response d sw1 sw2) ->
  bad_status sw1 sw2 ->
  _get_data_with_get_response dev conn (body ++ [L]) w
  = (after_transmit w s1 (body ++ [L]),
     Raise (SmartCardError (command_failed_msg (body ++ [L]) sw1 sw2))).
Proof.
  intros Htx [Hsucc H61].
  unfold _get_data_with_get_response, bind.
  rewrite (transmit_response conn _ _ _ _ _ _ Htx).
  unfold lift; rewrite last_item_app, Hsucc.
  apply Z.eqb_neq in H61; rewrite H61; reflexivity.
Qed.

(** The run of the routine when the command is accepted: the
    continuation command and what becomes of its reply. *)
Lemma get_data_continue (conn : SmartCardConnection) (body : list Z) (L : Z)
  (w : world S) (s1 s2 : S) (d data : list Z) (sw1 sw2 len r1 r2 : Z) :
  dev_transmit dev (dstate w) (body ++ [L]) = (s1, Response d sw1 sw2) ->
  spec_continuation_length L sw1 sw2 = Some len ->
  dev_transmit dev s1 (get_response_apdu_prefix conn ++ [len])
  = (s2, Response data r1 r2) ->
  _get_data_with_get_response dev conn (body ++ [L]) w
  = (after_transmit (after_transmit w s1 (body ++ [L])) s2
       (get_response_apdu_prefix conn ++ [len]),
     if is_SW_SUCCESS r1 r2 then Ok data
     else Raise (SmartCardError
                   (get_response_failed_msg
                      (get_response_apdu_prefix conn ++ [len]) r1 r2))).
Proof.
  intros Htx Hlen Htx2.
  unfold _get_data_with_get_response, bind.
  rewrite (transmit_response conn _ _ _ _ _ _ Htx).
  unfold lift; rewrite last_item_app.
  unfold spec_continuation_length in Hlen.
  destruct (is_SW_SUCCESS sw1 sw2);
    [| destruct (sw1 =? 0x61); [|discriminate]];
    injection Hlen as <-;
    cbv beta iota zeta delta [ret];
    rewrite (transmit_response conn _ (after_transmit w s1 (body ++ [L]))
               s2 data r1 r2 Htx2);
    destruct (is_SW_SUCCESS r1 r2); reflexivity.
Qed.

(** *** What each operation adds to the trace *)

Lemma emits_ret {A : Type} (P : event -> Prop) (a : A) : emits (S := S) P (ret a).
Proof.
  intros w w' r H; injection H as <- _.
  exists []; rewrite app_nil_r; split; [reflexivity | constructor].
Qed.

Lemma emits_raise {A : Type} (P : event -> Prop) (e : exn) :
  emits (S := S) (A := A) P (raise e).
Proof.
  intros w w' r H; injection H as <- _.
  exists []; rewrite app_nil_r; split; [reflexivity | constructor].
Qed.

Lemma emits_lift {A : Type} (P : event -> Prop) (x : result A) :
  emits (S := S) P (lift x).
Proof.
  intros w w' r H; injection H as <- _.
  exists []; rewrite app_nil_r; split; [reflexivity | constructor].
Qed.

Lemma emits_bind {A B : Type} (P : event -> Prop) (m : M S A) (k : A -> M S B) :
  emits P m -> (forall a, emits P (k a)) -> emits P (bind m k).
Proof.
  intros Hm Hk w w' r H; unfold bind in H.
  destruct (m w) as [w1 [a|e]] eqn:Hmw.
  - destruct (Hm _ _ _ Hmw) as [ev1 [Ht1 HP1]].
    destruct (Hk a _ _ _ H) as [ev2 [Ht2 HP2]].
    exists (ev1 ++ ev2); split.
    + rewrite Ht2, Ht1, app_assoc; reflexivity.
    + apply Forall_app; split; assumption.
  - injection H as <- <-; exact (Hm _ _ _ Hmw).
Qed.

Lemma emits_weaken {A : Type} (P Q : event -> Prop) (m : M S A) :
  (forall e, P e -> Q e) -> emits P m -> emits Q m.
Proof.
  intros HPQ Hm w w' r H.
  destruct (Hm _ _ _ H) as [evs [Ht HP]].
  exists evs; split; [exact Ht|].
  eapply Forall_impl; [exact HPQ | exact HP].
Qed.

Lemma emits_transmit (P : event -> Prop) (conn : SmartCardConnection)
  (apdu : list Z) :
  P (EvTransmit apdu) -> emits P (transmit dev conn apdu).
Proof.
  intros HP w w' r H; unfold transmit in H.
  exists [EvTransmit apdu].
  destruct (dev_transmit dev (dstate w) apdu) as [s [d a b|k]];
    injection H as <- _; (split; [reflexivity | repeat constructor; exact HP]).
Qed.

Lemma emits_get_data (P : event -> Prop) (conn : SmartCardConnection)
  (cmd : list Z) :
  P (EvTransmit cmd) ->
  (forall n, P (EvTransmit (get_response_apdu_prefix conn ++ [n]))) ->
  emits P (_get_data_with_get_response dev conn cmd).
Proof.
  intros Hcmd Hcont; unfold _get_data_with_get_response.
  apply emits_bind; [apply emits_transmit; exact Hcmd|].
  intros [[d sw1] sw2]; cbv zeta.
  apply emits_bind; [apply emits_lift|]; intros L.
  apply emits_bind.
  { destruct (is_SW_SUCCESS sw1 sw2); [apply emits_ret|].
    destruct (sw1 =? 0x61); [apply emits_ret | apply emits_raise]. }
  intros len.
  apply emits_bind; [apply emits_transmit; apply Hcont|].
  intros [[data r1] r2].
  destruct (negb (is_SW_SUCCESS r1 r2)); [apply emits_raise | apply emits_ret].
Qed.

Lemma emits_read_fields (P : event -> Prop) (conn : SmartCardConnection)
  (cmds : list APDUCommand) :
  (forall c, In c cmds -> P (EvTransmit (ins c))) ->
  (forall n, P (EvTransmit (get_response_apdu_prefix conn ++ [n]))) ->
  forall card_data, emits P (read_fields dev conn cmds card_data).
Proof.
  intros Hcmds Hcont.
  induction cmds as [|c rest IH]; intros card_data; simpl.
  - apply emits_ret.
  - apply emits_bind.
    + unfold _read_field; apply emits_bind.
      * apply emits_get_data; [apply Hcmds; left; reflexivity | exact Hcont].
      * intros data; apply emits_lift.
    + intros result; apply IH.
      intros c' Hc'; apply Hcmds; right; exact Hc'.
Qed.

Lemma emits_photo_segment_try (P : event -> Prop) (conn : SmartCardConnection)
  (i : Z) (photo_data : list Z) :
  P (EvTransmit (photo_segment_cmd i)) ->
  (forall n, P (EvTransmit (get_response_apdu_prefix conn ++ [n]))) ->
  emits P (photo_segment_try dev conn i photo_data).
Proof.
  intros Hseg Hcont; unfold photo_segment_try; cbv zeta.
  apply emits_bind; [apply emits_get_data; assumption|].
  intros segment_data; apply emits_lift.
Qed.

Lemma emits_photo_loop (P : event -> Prop) (conn : SmartCardConnection) :
  (forall i, P (EvTransmit (photo_segment_cmd i))) ->
  (forall n, P (EvTransmit (get_response_apdu_prefix conn ++ [n]))) ->
  forall indices photo_data, emits P (photo_loop dev conn indices photo_data).
Proof.
  intros Hseg Hcont indices.
  induction indices as [|i rest IH]; intros photo_data; simpl.
  - apply emits_ret.
  - intros w w' r H.
    destruct (photo_segment_try dev conn i photo_data w)
      as [w1 [d|e]] eqn:Hread;
      destruct (emits_photo_segment_try P conn i photo_data (Hseg i) Hcont
                  _ _ _ Hread)
      as [ev1 [Ht1 HP1]].
    + destruct (IH _ _ _ _ H) as [ev2 [Ht2 HP2]].
      exists (ev1 ++ ev2); split.
      * rewrite Ht2, Ht1, app_assoc; reflexivity.
      * apply Forall_app; split; assumption.
    + exists ev1; destruct e; injection H as <- _; split; assumption.
Qed.

Lemma emits_read_photo (P : event -> Prop) (conn : SmartCardConnection)
  (segments : nat) :
  (forall i, P (EvTransmit (photo_segment_cmd i))) ->
  (forall n, P (EvTransmit (get_response_apdu_prefix conn ++ [n]))) ->
  emits P (_read_photo dev conn segments).
Proof.
  intros Hseg Hcont; unfold _read_photo.
  apply emits_bind; [apply emits_photo_loop; assumption|].
  intros photo_data.
  destruct (List.length photo_data <? 1024)%nat; apply emits_ret.
Qed.

Lemma emits_select_applet (P : event -> Prop) (conn : SmartCardConnection) :
  P (EvTransmit (APDU_SELECT_COMMAND ++ APDU_APPLET_ID)) ->
  (forall n, P (EvTransmit (get_response_apdu_prefix conn ++ [n]))) ->
  emits P (select_applet dev conn).
Proof.
  intros Hsel Hcont; unfold select_applet; cbv zeta.
  apply emits_bind; [apply emits_transmit; exact Hsel|].
  intros [[d sw1] sw2].
  destruct (is_SW_SUCCESS sw1 sw2); [apply emits_ret|].
  destruct (sw1 =? 0x61); [|apply emits_raise].
  apply emits_bind; [apply emits_transmit; apply Hcont|].
  intros [[d' r1] r2].
  destruct (negb (is_SW_SUCCESS r1 r2)); [apply emits_raise | apply emits_ret].
Qed.


(** [connect] in full. *)
Lemma connect_run (self : SmartCardConnection) (w : world S) :
  connect dev self w =
  match dev_connect dev (dstate w) with
  | (s, None) =>
      match dev_getATR dev s with
      | ATR atr =>
          ({| dstate := s; trace := trace w ++ [EvConnect; EvGetATR atr] |},
           Ok {| get_response_apdu_prefix := prefix_of_atr atr |})
      | ATRRaise k =>
          ({| dstate := s; trace := trace w ++ [EvConnect; EvGetATRRaised] |},
           Raise (PyError k))
      end
  | (s, Some k) =>
      ({| dstate := s; trace := trace w ++ [EvConnect] |}, Raise (PyError k))
  end.
Proof.
  unfold connect, bind, conn_connect, conn_getATR, ret, record_event.
  destruct (dev_connect dev (dstate w)) as [s [k|]]; simpl; [reflexivity|].
  destruct (dev_getATR dev s) as [atr|k]; rewrite <- app_assoc; reflexivity.
Qed.

(** The body of [read_card], with [connect] taken apart from the rest. *)
Lemma read_card_body_run (conn0 : SmartCardConnection) (w : world S) :
  read_card_body dev conn0 w =
  match connect dev conn0 w with
  | (w1, Ok conn) =>
      (select_applet dev conn ;;;
       card_data <- read_fields dev conn commands new_IDCardData ;;
       photo <- _read_photo dev conn 20 ;;
       ret (set_photo_bytes card_data photo)) w1
  | (w1, Raise e) => (w1, Raise e)
  end.
Proof.
  unfold read_card_body, open_session, bind.
  destruct (connect dev conn0 w) as [w1 [conn|e]]; [|reflexivity].
  destruct (select_applet dev conn w1) as [w2 [[]|e]]; reflexivity.
Qed.

(** The [finally] clause of [read_card]. *)
Lemma finally_disconnect_run {A : Type} (m : M S A) (conn : SmartCardConnection)
  (w : world S) :
  try_finally m (disconnect dev conn) w
  = (after_disconnect dev (fst (m w)),
     finally_outcome dev (fst (m w)) (snd (m w))).
Proof.
  unfold try_finally, disconnect, after_disconnect, finally_outcome,
    record_event.
  destruct (m w) as [w' r]; cbn [fst snd].
  destruct (dev_disconnect dev (dstate w')) as [s [k|]]; reflexivity.
Qed.

End EngineFacts.

Section ConnectionFacts.


Lemma prefix_of_atr_length (atr : list Z) :
  List.length (prefix_of_atr atr) = 4%nat.
Proof. unfold prefix_of_atr; destruct (list_eqb _ _); reflexivity. Qed.

Lemma createConnection_trace {S : Type} (dev : device S) (w w' : world S)
  (r : result unit) :
  createConnection dev w = (w', r) -> trace w' = trace w ++ [EvCreateConnection].
Proof.
  unfold createConnection, record_event; intros H.
  destruct (dev_createConnection dev (dstate w)) as [s [k|]];
    injection H as <- _; reflexivity.
Qed.


End ConnectionFacts.



Section ContinuationFacts.

Context {S : Type}.
Variable dev : device S.

(** An accepted command is followed by one continuation command, whatever
    the channel then answers. *)
Lemma get_data_accepted (conn : SmartCardConnection) (body : list Z) (L : Z)
  (w : world S) (s1 : S) (d : list Z) (sw1 sw2 len : Z) :
  dev_transmit dev (dstate w) (body ++ [L]) = (s1, Response d sw1 sw2) ->
  spec_continuation_length L sw1 sw2 = Some len ->
  exists w' r,
    _get_data_with_get_response dev conn (body ++ [L]) w = (w', r)
    /\ trace w' = trace w ++ [EvTransmit (body ++ [L]);
                              EvTransmit (get_response_apdu_prefix conn ++ [len])].
Proof.
  intros Htx Hlen.
  destruct (dev_transmit dev s1 (get_response_apdu_prefix conn ++ [len]))
    as [s2 [data r1 r2|k]] eqn:Htx2.
  - eexists; eexists; split;
      [exact (get_data_continue dev conn body L w s1 s2 d data
                sw1 sw2 len r1 r2 Htx Hlen Htx2)|].
    simpl; rewrite <- app_assoc; reflexivity.
  - exists (after_transmit (after_transmit w s1 (body ++ [L])) s2
              (get_response_apdu_prefix conn ++ [len])), (Raise (PyError k)).
    split; [|simpl; rewrite <- app_assoc; reflexivity].
    unfold _get_data_with_get_response, bind.
    rewrite (transmit_response dev conn _ _ _ _ _ _ Htx).
    unfold lift; rewrite last_item_app.
    unfold spec_continuation_length in Hlen.
    destruct (is_SW_SUCCESS sw1 sw2);
      [| destruct (sw1 =? 0x61); [|discriminate]];
      injection Hlen as <-;
      cbv beta iota zeta delta [ret];
      rewrite (transmit_raises dev conn _ (after_transmit w s1 (body ++ [L]))
                 s2 k Htx2);
      reflexivity.
Qed.

End ContinuationFacts.

(** C2, as stated, fails: the routine examines two status words, and the
    pair [(61, 05)], when it is the status word of the continuation
    read, is not taken as more-data: the routine raises a protocol error
    and retrieves nothing more. *)
Lemma continuation_more_data_is_failure :
  _get_data_with_get_response sim_device
    {| get_response_apdu_prefix := [0x00; 0xC0; 0x00; 0x00] |}
    [0x80; 0xB0; 0x00; 0x04; 0x02; 0x00; 0x0D]
    (sim_start [0x3B; 0x68]
       [Response [] 0x90 0x00; Response [0x31; 0x32] 0x61 0x05])
  = ({| dstate := {| sim_atr := [0x3B; 0x68]; sim_script := [] |};
        trace := [EvTransmit [0x80; 0xB0; 0x00; 0x04; 0x02; 0x00; 0x0D];
                  EvTransmit [0x00; 0xC0; 0x00; 0x00; 0x0D]] |},
     Raise (SmartCardError "GET RESPONSE failed (00 C0 00 00 0D): 61 05")).
Proof. vm_compute; reflexivity. Qed.

(** C2, amended. The continuation-read routine sorts the status word
    [(sw1, sw2)] of its command three ways. On [(90, 00)] it goes on to
    the continuation with the length of the command; on [(61, sw2)] it
    goes on to a continuation asking for [sw2] bytes; on any other pair
    it raises a protocol error without a second transmission. It sorts
    the status word of the continuation two ways: [(90, 00)] is success
    and every other pair, a pair [(61, n)] included, is a failure for
    which it raises a protocol error. The message of either error ends
    with both status bytes in hexadecimal, from which the two bytes can
    be read back. *)
Theorem status_word_classification {S : Type} (dev : device S)
  (conn : SmartCardConnection) (body : list Z) (L : Z) (w : world S)
  (s1 : S) (d : list Z) (sw1 sw2 : Z) :
  dev_transmit dev (dstate w) (body ++ [L]) = (s1, Response d sw1 sw2) ->
  let cmd := body ++ [L] in
  let continuation n := EvTransmit (get_response_apdu_prefix conn ++ [n]) in
  (sw1 = 0x90 /\ sw2 = 0x00 ->
   exists w' r, _get_data_with_get_response dev conn cmd w = (w', r)
                /\ trace w' = trace w ++ [EvTransmit cmd; continuation L])
  /\ (sw1 = 0x61 ->
      exists w' r, _get_data_with_get_response dev conn cmd w = (w', r)
                   /\ trace w' = trace w ++ [EvTransmit cmd; continuation sw2])
  /\ (~ (sw1 = 0x90 /\ sw2 = 0x00) -> sw1 <> 0x61 ->
      _get_data_with_get_response dev conn cmd w
      = (after_transmit w s1 cmd,
         Raise (SmartCardError
                  ("Command failed (" ++ toHexString cmd ++ "): "
                     ++ format_02X sw1 ++ " " ++ format_02X sw2)%string)))
  /\ (forall a b a' b',
        0 <= a < 256 -> 0 <= b < 256 -> 0 <= a' < 256 -> 0 <= b' < 256 ->
        command_failed_msg cmd a b = command_failed_msg cmd a' b' ->
        a = a' /\ b = b')
  /\ (forall len s2 data r1 r2,
        (sw1 = 0x90 /\ sw2 = 0x00 /\ len = L) \/ (sw1 = 0x61 /\ len = sw2) ->
        let get_response_apdu := get_response_apdu_prefix conn ++ [len] in
        dev_transmit dev s1 get_response_apdu = (s2, Response data r1 r2) ->
        let w2 := after_transmit (after_transmit w s1 cmd) s2 get_response_apdu in
        (r1 = 0x90 /\ r2 = 0x00 ->
         _get_data_with_get_response dev conn cmd w = (w2, Ok data))
        /\ (~ (r1 = 0x90 /\ r2 = 0x00) ->
            _get_data_with_get_response dev conn cmd w
            = (w2,
               Raise (SmartCardError
                        ("GET RESPONSE failed ("
                           ++ toHexString get_response_apdu ++ "): "
                           ++ format_02X r1 ++ " " ++ format_02X r2)%string))))
  /\ (forall apdu a b a' b',
        0 <= a < 256 -> 0 <= b < 256 -> 0 <= a' < 256 -> 0 <= b' < 256 ->
        get_response_failed_msg apdu a b = get_response_failed_msg apdu a' b' ->
        a = a' /\ b = b').
Proof.
  intros Htx cmd continuation.
  split; [|split; [|split; [|split; [|split]]]].
  - intros [-> ->].
    apply (get_data_accepted dev conn body L w s1 d 0x90 0x00 L Htx).
    reflexivity.
  - intros ->.
    apply (get_data_accepted dev conn body L w s1 d 0x61 sw2 sw2 Htx).
    unfold spec_continuation_length, is_SW_SUCCESS; reflexivity.
  - intros Hns H61.
    apply (get_data_bad_status dev conn body L w s1 d sw1 sw2 Htx).
    split; [|exact H61].
    unfold is_SW_SUCCESS.
    destruct (Z.eqb_spec sw1 0x90) as [E1|]; [|reflexivity].
    destruct (Z.eqb_spec sw2 0x00) as [E2|]; [|reflexivity].
    exfalso; apply Hns; split; assumption.
  - intros a b a' b' Ha Hb Ha' Hb' Hmsg.
    unfold command_failed_msg in Hmsg.
    apply append_cancel_l in Hmsg.
    apply append_cancel_l in Hmsg.
    apply append_cancel_l in Hmsg.
    apply status_text_inj; assumption.
  - intros len s2 data r1 r2 Hcase get_response_apdu Htx2 w2.
    assert (Hlen : spec_continuation_length L sw1 sw2 = Some len).
    { destruct Hcase as [(-> & -> & ->)|[-> ->]]; reflexivity. }
    pose proof (get_data_continue dev conn body L w s1 s2 d data
                  sw1 sw2 len r1 r2 Htx Hlen Htx2) as Hrun.
    split.
    + intros [-> ->]; exact Hrun.
    + intros Hns.
      replace (is_SW_SUCCESS r1 r2) with false in Hrun; [exact Hrun|].
      symmetry; unfold is_SW_SUCCESS.
      destruct (Z.eqb_spec r1 0x90) as [E1|]; [|reflexivity].
      destruct (Z.eqb_spec r2 0x00) as [E2|]; [|reflexivity].
      exfalso; apply Hns; split; assumption.
  - intros apdu a b a' b' Ha Hb Ha' Hb' Hmsg.
    unfold get_response_failed_msg in Hmsg.
    apply append_cancel_l in Hmsg.
    apply append_cancel_l in Hmsg.
    apply append_cancel_l in Hmsg.
    apply status_text_inj; assumption.
Qed.

Lemma status_word_classification_witness :
  _get_data_with_get_response sim_device
    {| get_response_apdu_prefix := [0x00; 0xC0; 0x00; 0x00] |}
    [0x80; 0xB0; 0x00; 0x04; 0x02; 0x00; 0x0D]
    (sim_start [0x3B; 0x68] [Response [] 0x6A 0x82])
  = ({| dstate := {| sim_atr := [0x3B; 0x68]; sim_script := [] |};
        trace := [EvTransmit [0x80; 0xB0; 0x00; 0x04; 0x02; 0x00; 0x0D]] |},
     Raise (SmartCardError "Command failed (80 B0 00 04 02 00 0D): 6A 82")).
Proof.
  apply (status_word_classification sim_device
           {| get_response_apdu_prefix := [0x00; 0xC0; 0x00; 0x00] |}
           [0x80; 0xB0; 0x00; 0x04; 0x02; 0x00] 0x0D
           (sim_start [0x3B; 0x68] [Response [] 0x6A 0x82])
           _ [] 0x6A 0x82 eq_refl).
  - intros [H _]; discriminate.
  - discriminate.
Defined.

(** C3. For a command ending in the requested length [L], the routine
    asks the continuation for [L] bytes when the command returned
    success and for [n] bytes when it returned more-data [(61, n)]. The
    continuation command is the prefix of the connection (four bytes
    once [connect] set it) followed by that one length byte. The
    response data of the continuation is the result when its status word
    is success; otherwise the routine raises a protocol error whose
    message carries the continuation command and its status word. *)
Theorem continuation_read_protocol {S : Type} (dev : device S)
  (conn : SmartCardConnection) (body : list Z) (L : Z) (w : world S)
  (s1 s2 : S) (d data : list Z) (sw1 sw2 len r1 r2 : Z) :
  dev_transmit dev (dstate w) (body ++ [L]) = (s1, Response d sw1 sw2) ->
  (sw1 = 0x90 /\ sw2 = 0x00 /\ len = L) \/ (sw1 = 0x61 /\ len = sw2) ->
  let get_response_apdu := get_response_apdu_prefix conn ++ [len] in
  dev_transmit dev s1 get_response_apdu = (s2, Response data r1 r2) ->
  _get_data_with_get_response dev conn (body ++ [L]) w
  = ({| dstate := s2;
        trace := trace w ++ [EvTransmit (body ++ [L]);
                             EvTransmit get_response_apdu] |},
     if (r1 =? 0x90) && (r2 =? 0x00) then Ok data
     else Raise (SmartCardError
                   ("GET RESPONSE failed (" ++ toHexString get_response_apdu
                      ++ "): " ++ format_02X r1 ++ " " ++ format_02X r2)%string))
  /\ (forall atr, get_response_apdu_prefix conn = prefix_of_atr atr ->
        List.length get_response_apdu = 5%nat).
Proof.
  intros Htx Hcase get_response_apdu Htx2.
  split.
  - assert (Hlen : spec_continuation_length L sw1 sw2 = Some len).
    { destruct Hcase as [(-> & -> & ->)|[-> ->]]; reflexivity. }
    rewrite (get_data_continue dev conn body L w s1 s2 d data
               sw1 sw2 len r1 r2 Htx Hlen Htx2).
    unfold after_transmit; cbn [dstate trace].
    rewrite <- app_assoc; reflexivity.
  - intros atr Hp; unfold get_response_apdu.
    rewrite length_app, Hp, prefix_of_atr_length; reflexivity.
Qed.

Lemma continuation_read_protocol_witness :
  _get_data_with_get_response sim_device
    {| get_response_apdu_prefix := [0x00; 0xC0; 0x00; 0x01] |}
    [0x80; 0xB0; 0x00; 0xD9; 0x02; 0x00; 0x08]
    (sim_start [0x3B; 0x67] [Response [] 0x61 0x04; Response [] 0x6C 0x08])
  = ({| dstate := {| sim_atr := [0x3B; 0x67]; sim_script := [] |};
        trace := [EvTransmit [0x80; 0xB0; 0x00; 0xD9; 0x02; 0x00; 0x08];
                  EvTransmit [0x00; 0xC0; 0x00; 0x01; 0x04]] |},
     Raise (SmartCardError "GET RESPONSE failed (00 C0 00 01 04): 6C 08")).
Proof.
  apply (continuation_read_protocol sim_device
           {| get_response_apdu_prefix := [0x00; 0xC0; 0x00; 0x01] |}
           [0x80; 0xB0; 0x00; 0xD9; 0x02; 0x00] 0x08
           (sim_start [0x3B; 0x67] [Response [] 0x61 0x04; Response [] 0x6C 0x08])
           _ _ [] [] 0x61 0x04 0x04 0x6C 0x08 eq_refl).
  - right; split; reflexivity.
  - reflexivity.
Defined.

Section ReadCardFacts.

Context {S : Type}.
Variable dev : device S.

Lemma read_fields_app (conn : SmartCardConnection) (a b : list APDUCommand) :
  forall (card_data : IDCardData) (w : world S),
    read_fields dev conn (a ++ b) card_data w =
    match read_fields dev conn a card_data w with
    | (w', Ok card_data') => read_fields dev conn b card_data' w'
    | (w', Raise e) => (w', Raise e)
    end.
Proof.
  induction a as [|c a IH]; intros card_data w; simpl; [reflexivity|].
  unfold bind.
  destruct (_read_field dev conn c w) as [w1 [v|e]]; [apply IH | reflexivity].
Qed.

Lemma commands_end_with_length (cmd : APDUCommand) :
  In cmd commands -> exists body L, ins cmd = body ++ [L].
Proof.
  intros Hin; simpl in Hin.
  repeat (destruct Hin as [<-|Hin];
          [eexists [_; _; _; _; _; _], _; reflexivity|]).
  destruct Hin.
Qed.

(** A read that meets a status word that is neither success nor
    more-data raises a protocol error, after its own transmissions. *)
Lemma get_data_status_failure (conn : SmartCardConnection) (cmd : list Z)
  (w : world S) :
  (exists body L, cmd = body ++ [L]) ->
  status_fails_read dev conn cmd w ->
  exists w' msg,
    _get_data_with_get_response dev conn cmd w = (w', Raise (SmartCardError msg))
    /\ (trace w' = trace w ++ [EvTransmit cmd]
        \/ exists n,
            trace w' = trace w ++ [EvTransmit cmd;
                                   EvTransmit (get_response_apdu_prefix conn ++ [n])]).
Proof.
  intros (body & L & ->) (s1 & d & sw1 & sw2 & Htx & Hfail).
  destruct Hfail as [Hbad|(L' & len & s2 & d' & r1 & r2 & HL & Hlen & Htx2 & Hbad)].
  - eexists; eexists; split;
      [exact (get_data_bad_status dev conn body L w s1 d sw1 sw2 Htx Hbad)|].
    left; reflexivity.
  - rewrite last_item_app in HL; injection HL as <-.
    pose proof (get_data_continue dev conn body L w s1 s2 d d'
                  sw1 sw2 len r1 r2 Htx Hlen Htx2) as Hrun.
    destruct Hbad as [Hns _]; rewrite Hns in Hrun.
    eexists; eexists; split; [exact Hrun|].
    right; exists len; simpl; rewrite <- app_assoc; reflexivity.
Qed.

Lemma read_field_raises (conn : SmartCardConnection) (cmd : APDUCommand)
  (w w' : world S) (e : exn) :
  _get_data_with_get_response dev conn (ins cmd) w = (w', Raise e) ->
  _read_field dev conn cmd w = (w', Raise e).
Proof. intros H; unfold _read_field, bind; rewrite H; reflexivity. Qed.

(** *** The connection is released only by the [finally] clause *)

Lemma count_disconnects_app (t evs : list event) :
  Forall not_disconnect evs ->
  count_disconnects (t ++ evs) = count_disconnects t.
Proof.
  intros H; unfold count_disconnects.
  rewrite filter_app, length_app.
  replace (filter is_disconnect evs) with (@nil event); [simpl; lia|].
  induction H as [|e evs He _ IH]; simpl; [reflexivity|].
  unfold not_disconnect in He; rewrite He; exact IH.
Qed.

Lemma emits_connect (P : event -> Prop) (self : SmartCardConnection) :
  P EvConnect -> (forall atr, P (EvGetATR atr)) -> P EvGetATRRaised ->
  emits P (connect dev self).
Proof.
  intros H1 H2 H3 w w' r H; rewrite connect_run in H.
  destruct (dev_connect dev (dstate w)) as [s [k|]].
  - injection H as <- _.
    exists [EvConnect]; split; [reflexivity | repeat constructor; exact H1].
  - destruct (dev_getATR dev s) as [atr|k]; injection H as <- _;
      (eexists; split; [reflexivity|]);
      repeat constructor; solve [exact H1 | apply H2 | exact H3].
Qed.

Lemma emits_open_session_no_disconnect (self : SmartCardConnection) :
  emits not_disconnect (open_session dev self).
Proof.
  unfold open_session.
  apply emits_bind; [apply emits_connect; reflexivity|].
  intros conn; apply emits_bind;
    [apply emits_select_applet; reflexivity | intros _; apply emits_ret].
Qed.

(** No disconnection before the fields are read. *)
Lemma no_disconnect_before_fields (s0 : S) (wc w1 w2 w3 : world S)
  (conn : SmartCardConnection) (cmds : list APDUCommand)
  (card_data card_data' : IDCardData) (cmd : list Z) (r : result (list Z)) :
  createConnection dev (init_world s0) = (wc, Ok tt) ->
  open_session dev new_SmartCardConnection wc = (w1, Ok conn) ->
  read_fields dev conn cmds card_data w1 = (w2, Ok card_data') ->
  _get_data_with_get_response dev conn cmd w2 = (w3, r) ->
  count_disconnects (trace w3) = 0%nat.
Proof.
  intros Hc Ho Hf Hg.
  pose proof (createConnection_trace _ _ _ _ Hc) as Htc; simpl in Htc.
  destruct (emits_open_session_no_disconnect _ _ _ _ Ho) as [e1 [T1 P1]].
  destruct (emits_read_fields dev not_disconnect conn cmds
              (fun _ _ => eq_refl) (fun _ => eq_refl) _ _ _ _ Hf)
    as [e2 [T2 P2]].
  destruct (emits_get_data dev not_disconnect conn cmd eq_refl
              (fun _ => eq_refl) _ _ _ Hg) as [e3 [T3 P3]].
  rewrite T3, T2, T1, Htc.
  rewrite !count_disconnects_app by assumption; reflexivity.
Qed.

(** [read_card] once the session is open. *)
Lemma read_card_run (s0 : S) (wc w1 : world S) (conn : SmartCardConnection) :
  createConnection dev (init_world s0) = (wc, Ok tt) ->
  open_session dev new_SmartCardConnection wc = (w1, Ok conn) ->
  read_card dev (init_world s0) =
  match read_fields dev conn commands new_IDCardData w1 with
  | (w2, Ok card_data) =>
      match _read_photo dev conn 20 w2 with
      | (w3, Ok photo) =>
          (after_disconnect dev w3,
           finally_outcome dev w3 (Ok (set_photo_bytes card_data photo)))
      | (w3, Raise e) => (after_disconnect dev w3, finally_outcome dev w3 (Raise e))
      end
  | (w2, Raise e) => (after_disconnect dev w2, finally_outcome dev w2 (Raise e))
  end.
Proof.
  intros Hc Ho.
  unfold read_card; rewrite Hc, finally_disconnect_run.
  unfold read_card_body, bind; rewrite Ho.
  destruct (read_fields dev conn commands new_IDCardData w1) as [w2 [cd|e]];
    [|reflexivity].
  destruct (_read_photo dev conn 20 w2) as [w3 [photo|e]]; reflexivity.
Qed.

(** *** The photo loop *)

Lemma photo_segment_try_ok (conn : SmartCardConnection) (i : Z)
  (photo_data d : list Z) (w w1 : world S) :
  _get_data_with_get_response dev conn (photo_segment_cmd i) w = (w1, Ok d) ->
  forallb in_byte_range d = true ->
  photo_segment_try dev conn i photo_data w = (w1, Ok (photo_data ++ d)).
Proof.
  intros Hread Hbytes.
  unfold photo_segment_try, bind, lift, bytearray_extend; cbv zeta.
  rewrite Hread, Hbytes; reflexivity.
Qed.

Lemma photo_segment_try_raises (conn : SmartCardConnection) (i : Z)
  (photo_data : list Z) (w w1 : world S) (e : exn) :
  _get_data_with_get_response dev conn (photo_segment_cmd i) w = (w1, Raise e) ->
  photo_segment_try dev conn i photo_data w = (w1, Raise e).
Proof.
  intros Hread; unfold photo_segment_try, bind; cbv zeta.
  rewrite Hread; reflexivity.
Qed.

Lemma photo_loop_segments (conn : SmartCardConnection) (i : nat)
  (ds : list (list Z)) (w w' : world S) :
  segments_ok dev conn i ds w w' ->
  forall (n : nat) (photo_data : list Z),
    photo_loop dev conn (map Z.of_nat (seq i (List.length ds + n))) photo_data w
    = photo_loop dev conn (map Z.of_nat (seq (i + List.length ds) n))
        (photo_data ++ List.concat ds) w'.
Proof.
  induction 1 as [i w|i d ds w w1 w2 Hread Hbytes _ IH]; intros n photo_data.
  - simpl; rewrite Nat.add_0_r, app_nil_r; reflexivity.
  - cbn [List.length Nat.add seq map photo_loop].
    rewrite (photo_segment_try_ok conn _ photo_data d w w1 Hread Hbytes), IH.
    cbn [List.concat]; rewrite app_assoc, Nat.add_succ_r; reflexivity.
Qed.

(** The outcome of the loop over [segments] indices when the first
    segments succeed and the [try] statement of the next one raises [e]. *)
Lemma photo_loop_stops (conn : SmartCardConnection) (segments : nat)
  (ds : list (list Z)) (w w3 w4 : world S) (e : exn) :
  segments_ok dev conn 1 ds w w3 ->
  (List.length ds < segments)%nat ->
  photo_segment_try dev conn (Z.of_nat (Datatypes.S (List.length ds)))
    (List.concat ds) w3
  = (w4, Raise e) ->
  photo_loop dev conn (segment_indices segments) [] w
  = (w4, match e with
         | SmartCardError _ => Ok (List.concat ds)
         | PyError _ => Raise e
         end).
Proof.
  intros Hok Hlt Hfail; unfold segment_indices.
  replace segments
    with (List.length ds + Datatypes.S (segments - Datatypes.S (List.length ds)))%nat
    by lia.
  rewrite (photo_loop_segments conn 1 ds w w3 Hok).
  cbn [seq map photo_loop Nat.add app].
  rewrite Hfail; destruct e; reflexivity.
Qed.

Lemma photo_loop_exhausted (conn : SmartCardConnection) (segments : nat)
  (ds : list (list Z)) (w w3 : world S) :
  segments_ok dev conn 1 ds w w3 ->
  List.length ds = segments ->
  photo_loop dev conn (segment_indices segments) [] w = (w3, Ok (List.concat ds)).
Proof.
  intros Hok <-; unfold segment_indices.
  rewrite <- (Nat.add_0_r (List.length ds)) at 1.
  rewrite (photo_loop_segments conn 1 ds w w3 Hok); reflexivity.
Qed.

(** The [try] block of [read_card] once the nine fields are read and the
    photo loop is over with the segments [ds] in the buffer. *)
Lemma read_card_body_run_photo (wc w1 w2 w4 : world S)
  (conn : SmartCardConnection) (card_data : IDCardData) (ds : list (list Z)) :
  open_session dev new_SmartCardConnection wc = (w1, Ok conn) ->
  read_fields dev conn commands new_IDCardData w1 = (w2, Ok card_data) ->
  photo_loop dev conn (segment_indices 20) [] w2 = (w4, Ok (List.concat ds)) ->
  read_card_body dev new_SmartCardConnection wc
  = (w4, Ok (set_photo_bytes card_data
               (if (List.length (List.concat ds) <? 1024)%nat then None
                else Some (List.concat ds)))).
Proof.
  intros Ho Hf Hloop.
  unfold read_card_body, bind; rewrite Ho, Hf.
  unfold _read_photo, bind; rewrite Hloop.
  destruct (List.length (List.concat ds) <? 1024)%nat; reflexivity.
Qed.

End ReadCardFacts.

(** C1, as stated, fails: on a channel whose [disconnect] raises, the
    read of the first field meets the status word [6A 82] and raises a
    protocol error, and yet what [read_card] raises is the exception of
    [disconnect], not a protocol error. *)
Lemma field_failure_release_error_wins :
  let conn := {| get_response_apdu_prefix := [0x00; 0xC0; 0x00; 0x01] |} in
  let start := sim_start [0x3B; 0x67]
                 [Response [] 0x90 0x00; Response [] 0x6A 0x82] in
  exists wc w1 w3,
    createConnection sim_device_stuck start = (wc, Ok tt)
    /\ open_session sim_device_stuck new_SmartCardConnection wc = (w1, Ok conn)
    /\ _read_field sim_device_stuck conn
         (mkAPDUCommand [0x80; 0xB0; 0x00; 0x04; 0x02; 0x00; 0x0D] "cid") w1
       = (w3, Raise (SmartCardError
                       "Command failed (80 B0 00 04 02 00 0D): 6A 82"))
    /\ snd (read_card sim_device_stuck start)
       = Raise (PyError "CardConnectionException").
Proof.
  cbv zeta; do 3 eexists.
  split; [vm_compute; reflexivity|].
  split; [vm_compute; reflexivity|].
  split; vm_compute; reflexivity.
Qed.

(** C1, amended. Let the session be open and the fields before [cmd] be
    read. If the read of [cmd] meets a status word that is neither
    success nor more-data, at its command or at its continuation, then
    that read raises a protocol error: no record is returned. After the
    transmissions of the failing read the only call made is the release
    of the connection (no further field is read), and that release is
    the only one of the whole run. [read_card] raises the protocol error
    when the release returns, and the exception of the release when the
    release raises. *)
Theorem field_failure_aborts_read {S : Type} (dev : device S) (s0 : S)
  (wc w1 w2 : world S) (conn : SmartCardConnection)
  (done rest : list APDUCommand) (cmd : APDUCommand) (card_data : IDCardData) :
  createConnection dev (init_world s0) = (wc, Ok tt) ->
  open_session dev new_SmartCardConnection wc = (w1, Ok conn) ->
  commands = done ++ cmd :: rest ->
  read_fields dev conn done new_IDCardData w1 = (w2, Ok card_data) ->
  status_fails_read dev conn (ins cmd) w2 ->
  exists msg w3,
    _read_field dev conn cmd w2 = (w3, Raise (SmartCardError msg))
    /\ read_card dev (init_world s0)
       = ({| dstate := fst (dev_disconnect dev (dstate w3));
             trace := trace w3 ++ [EvDisconnect] |},
          match snd (dev_disconnect dev (dstate w3)) with
          | None => Raise (SmartCardError msg)
          | Some kind => Raise (PyError kind)
          end)
    /\ (trace w3 = trace w2 ++ [EvTransmit (ins cmd)]
        \/ exists n,
            trace w3 = trace w2
                       ++ [EvTransmit (ins cmd);
                           EvTransmit (get_response_apdu_prefix conn ++ [n])])
    /\ count_disconnects (trace w3 ++ [EvDisconnect]) = 1%nat.
Proof.
  intros Hc Ho Hcmds Hdone Hfail.
  assert (Hin : In cmd commands)
    by (rewrite Hcmds; apply in_or_app; right; left; reflexivity).
  destruct (get_data_status_failure dev conn (ins cmd) w2
              (commands_end_with_length cmd Hin) Hfail)
    as (w3 & msg & Hread & Htrace).
  exists msg, w3.
  pose proof (read_field_raises dev conn cmd w2 w3 _ Hread) as Hfield.
  split; [exact Hfield|].
  split.
  - rewrite (read_card_run dev s0 wc w1 conn Hc Ho).
    rewrite Hcmds, read_fields_app, Hdone.
    cbn [read_fields]; unfold bind; rewrite Hfield; reflexivity.
  - split; [exact Htrace|].
    unfold count_disconnects.
    rewrite filter_app, length_app.
    fold (count_disconnects (trace w3)).
    rewrite (no_disconnect_before_fields dev s0 wc w1 w2 w3 conn done
               new_IDCardData card_data (ins cmd) _ Hc Ho Hdone Hread).
    reflexivity.
Qed.

Lemma field_failure_aborts_read_witness :
  exists wf,
    read_card sim_device
      (sim_start [0x3B; 0x67; 0x00]
         [Response [] 0x90 0x00;
          Response [] 0x61 0x0D; Response [0x31; 0x32; 0x33] 0x90 0x00;
          Response [] 0x6A 0x82])
    = (wf, Raise (SmartCardError "Command failed (80 B0 00 11 02 00 64): 6A 82"))
    /\ count_disconnects (trace wf) = 1%nat.
Proof.
  pose (script := [Response [] 0x90 0x00;
                   Response [] 0x61 0x0D; Response [0x31; 0x32; 0x33] 0x90 0x00;
                   Response [] 0x6A 0x82]).
  edestruct (@field_failure_aborts_read sim sim_device
               {| sim_atr := [0x3B; 0x67; 0x00]; sim_script := script |})
    with (done := firstn 1 commands) (rest := skipn 2 commands)
         (cmd := mkAPDUCommand [0x80; 0xB0; 0x00; 0x11; 0x02; 0x00; 0x64]
                   "th_fullname")
    as (msg & w3 & Hfield & Hrun & _ & Hcount).
  - vm_compute; reflexivity.
  - vm_compute; reflexivity.
  - reflexivity.
  - vm_compute; reflexivity.
  - do 4 eexists; split; [reflexivity|].
    left; split; [reflexivity | discriminate].
  - exists (after_disconnect sim_device w3); split; [|exact Hcount].
    vm_compute in Hfield; injection Hfield as _ <-.
    exact Hrun.
Defined.

(** C5, as stated, fails: on a channel whose [disconnect] raises, the
    nine fields are read, the first photo segment fails with the status
    word [6A 82], the [try] block of [read_card] ends with a complete
    record, and yet [read_card] raises: a failure of the whole read is
    signalled. *)
Lemma photo_failure_release_error_wins :
  let start := sim_start [0x3B; 0x67]
                 (sim_fields_script [0x41; 0x23; 0x42]
                    ++ [Response [] 0x6A 0x82]) in
  exists wc card_data,
    createConnection sim_device_stuck start = (wc, Ok tt)
    /\ snd (read_card_body sim_device_stuck new_SmartCardConnection wc)
       = Ok card_data
    /\ photo_bytes card_data = None
    /\ snd (read_card sim_device_stuck start)
       = Raise (PyError "CardConnectionException").
Proof.
  cbv zeta; do 2 eexists.
  split; [vm_compute; reflexivity|].
  split; [vm_compute; reflexivity|].
  split; vm_compute; reflexivity.
Qed.

(** C5, amended. Let the session be open and the nine fields be read.
    If the first photo segments are read, as lists of bytes, and the
    next one, among the twenty, fails with a protocol error, the loop
    stops there and the [try] block of [read_card] ends with the record
    of the nine fields, with the photo absent or cut short (absent when
    the very first segment fails). The only call made after the failing
    read is the release of the connection. [read_card] returns that
    record when the release returns, and raises the exception of the
    release when the release raises. *)
Theorem photo_failure_is_absorbed {S : Type} (dev : device S) (s0 : S)
  (wc w1 w2 w3 w4 : world S) (conn : SmartCardConnection)
  (card_data : IDCardData) (ds : list (list Z)) (msg : string) :
  createConnection dev (init_world s0) = (wc, Ok tt) ->
  open_session dev new_SmartCardConnection wc = (w1, Ok conn) ->
  read_fields dev conn commands new_IDCardData w1 = (w2, Ok card_data) ->
  segments_ok dev conn 1 ds w2 w3 ->
  (List.length ds < 20)%nat ->
  _get_data_with_get_response dev conn
    (photo_segment_cmd (Z.of_nat (Datatypes.S (List.length ds)))) w3
  = (w4, Raise (SmartCardError msg)) ->
  let record :=
    {| cid := cid card_data; th_fullname := th_fullname card_data;
       en_fullname := en_fullname card_data; dob := dob card_data;
       gender := gender card_data; issuer := issuer card_data;
       issue_date := issue_date card_data;
       expire_date := expire_date card_data; address := address card_data;
       photo_bytes := if (List.length (List.concat ds) <? 1024)%nat then None
                      else Some (List.concat ds) |} in
  read_card_body dev new_SmartCardConnection wc = (w4, Ok record)
  /\ read_card dev (init_world s0)
     = ({| dstate := fst (dev_disconnect dev (dstate w4));
           trace := trace w4 ++ [EvDisconnect] |},
        match snd (dev_disconnect dev (dstate w4)) with
        | None => Ok record
        | Some kind => Raise (PyError kind)
        end)
  /\ (ds = [] -> photo_bytes record = None).
Proof.
  intros Hc Ho Hf Hok Hlt Hfail record.
  pose proof (photo_loop_stops dev conn 20 ds w2 w3 w4 _ Hok Hlt
                (photo_segment_try_raises dev conn _ _ _ _ _ Hfail)) as Hloop.
  split; [exact (read_card_body_run_photo dev wc w1 w2 w4 conn card_data ds
                   Ho Hf Hloop)|].
  split.
  - rewrite (read_card_run dev s0 wc w1 conn Hc Ho), Hf.
    unfold _read_photo, bind; rewrite Hloop.
    subst record.
    destruct (List.length (List.concat ds) <? 1024)%nat; reflexivity.
  - intros ->; reflexivity.
Qed.

Lemma photo_failure_is_absorbed_witness :
  exists wf r,
    read_card sim_device
      (sim_start [0x3B; 0x67]
         (sim_fields_script [0x41; 0x23; 0x42] ++ sim_photo_script))
    = (wf, Ok r)
    /\ photo_bytes r = Some (List.concat sim_five_segments)
    /\ cid r = lit "A B" /\ address r = lit "A B".
Proof.
  edestruct (@photo_failure_is_absorbed sim sim_device
               {| sim_atr := [0x3B; 0x67];
                  sim_script := sim_fields_script [0x41; 0x23; 0x42]
                                ++ sim_photo_script |})
    with (ds := sim_five_segments) as (_ & Hrun & _).
  - vm_compute; reflexivity.
  - vm_compute; reflexivity.
  - vm_compute; reflexivity.
  - repeat (eapply segments_ok_cons; [vm_compute; reflexivity | reflexivity |]).
    apply segments_ok_nil.
  - simpl; lia.
  - vm_compute; reflexivity.
  - eexists; eexists; split; [exact Hrun|].
    vm_compute; repeat split; reflexivity.
Defined.

(** C10, as stated, fails: on a channel whose [disconnect] raises, the
    nine fields are read and the transmission of the first photo segment
    raises [NoCardException], which is no protocol error; what
    [read_card] raises is the exception of [disconnect], not that
    exception. *)
Lemma photo_error_release_error_wins :
  let start := sim_start [0x3B; 0x67] (sim_fields_script [0x41; 0x23; 0x42]) in
  exists wc w1 w2 conn card_data,
    createConnection sim_device_stuck start = (wc, Ok tt)
    /\ open_session sim_device_stuck new_SmartCardConnection wc = (w1, Ok conn)
    /\ read_fields sim_device_stuck conn commands new_IDCardData w1
       = (w2, Ok card_data)
    /\ snd (_get_data_with_get_response sim_device_stuck conn
              (photo_segment_cmd 1) w2)
       = Raise (PyError "NoCardException")
    /\ snd (read_card sim_device_stuck start)
       = Raise (PyError "CardConnectionException").
Proof.
  cbv zeta; do 5 eexists.
  split; [vm_compute; reflexivity|].
  split; [vm_compute; reflexivity|].
  split; [vm_compute; reflexivity|].
  split; vm_compute; reflexivity.
Qed.

(** C10, amended. The photo loop only absorbs protocol errors. Let the
    session be open and the nine fields be read. If the first photo
    segments are read and, for the next one among the twenty, the read
    or the append of its data to the buffer raises an exception that is
    not a protocol error, then the loop does not catch it and the [try]
    block of [read_card] raises it: the whole read fails. After the
    release of the connection [read_card] raises that exception, or the
    exception of the release when the release raises. *)
Theorem photo_loop_propagates_other_errors {S : Type} (dev : device S) (s0 : S)
  (wc w1 w2 w3 w4 : world S) (conn : SmartCardConnection)
  (card_data : IDCardData) (ds : list (list Z)) (kind : string) :
  createConnection dev (init_world s0) = (wc, Ok tt) ->
  open_session dev new_SmartCardConnection wc = (w1, Ok conn) ->
  read_fields dev conn commands new_IDCardData w1 = (w2, Ok card_data) ->
  segments_ok dev conn 1 ds w2 w3 ->
  (List.length ds < 20)%nat ->
  photo_segment_try dev conn (Z.of_nat (Datatypes.S (List.length ds)))
    (List.concat ds) w3
  = (w4, Raise (PyError kind)) ->
  read_card_body dev new_SmartCardConnection wc = (w4, Raise (PyError kind))
  /\ read_card dev (init_world s0)
     = ({| dstate := fst (dev_disconnect dev (dstate w4));
           trace := trace w4 ++ [EvDisconnect] |},
        match snd (dev_disconnect dev (dstate w4)) with
        | None => Raise (PyError kind)
        | Some kind' => Raise (PyError kind')
        end).
Proof.
  intros Hc Ho Hf Hok Hlt Hfail.
  pose proof (photo_loop_stops dev conn 20 ds w2 w3 w4 _ Hok Hlt Hfail)
    as Hloop.
  split.
  - unfold read_card_body, bind; rewrite Ho, Hf.
    unfold _read_photo, bind; rewrite Hloop; reflexivity.
  - rewrite (read_card_run dev s0 wc w1 conn Hc Ho), Hf.
    unfold _read_photo, bind; rewrite Hloop; reflexivity.
Qed.

Lemma photo_loop_propagates_other_errors_witness :
  exists wf,
    read_card sim_device
      (sim_start [0x3B; 0x67]
         (sim_fields_script [0x41; 0x23; 0x42]
            ++ [Response [] 0x90 0x00; Response [0x01; 0x100] 0x90 0x00]))
    = (wf, Raise (PyError "ValueError")).
Proof.
  eexists.
  eapply (@photo_loop_propagates_other_errors sim sim_device
            {| sim_atr := [0x3B; 0x67];
               sim_script := sim_fields_script [0x41; 0x23; 0x42]
                             ++ [Response [] 0x90 0x00;
                                 Response [0x01; 0x100] 0x90 0x00] |})
    with (ds := @nil (list Z)).
  - vm_compute; reflexivity.
  - vm_compute; reflexivity.
  - vm_compute; reflexivity.
  - apply segments_ok_nil.
  - simpl; lia.
  - vm_compute; reflexivity.
Defined.

(** C6. Let the session be open and the nine fields be read. After the
    photo loop, whether the twenty segments were read or the loop
    stopped at the first failing segment, the buffer is the
    concatenation of the bytes of the segments read, in the order of
    their indices, and the record that the [try] block of [read_card]
    ends with holds the nine fields and, as its photo, nothing when that
    buffer is shorter than 1024 bytes and the whole buffer otherwise.
    [read_card] returns that record unless the release of the
    connection raises. *)
Theorem photo_is_whole_buffer_or_absent {S : Type} (dev : device S) (s0 : S)
  (wc w1 w2 w3 : world S) (conn : SmartCardConnection)
  (card_data : IDCardData) (ds : list (list Z)) :
  createConnection dev (init_world s0) = (wc, Ok tt) ->
  open_session dev new_SmartCardConnection wc = (w1, Ok conn) ->
  read_fields dev conn commands new_IDCardData w1 = (w2, Ok card_data) ->
  segments_ok dev conn 1 ds w2 w3 ->
  (List.length ds = 20%nat
   \/ ((List.length ds < 20)%nat
       /\ exists w4 msg,
           _get_data_with_get_response dev conn
             (photo_segment_cmd (Z.of_nat (Datatypes.S (List.length ds)))) w3
           = (w4, Raise (SmartCardError msg)))) ->
  exists wf photo,
    _read_photo dev conn 20 w2 = (wf, Ok photo)
    /\ ((List.length (List.concat ds) < 1024)%nat -> photo = None)
    /\ ((1024 <= List.length (List.concat ds))%nat ->
        photo = Some (List.concat ds))
    /\ read_card_body dev new_SmartCardConnection wc
       = (wf, Ok {| cid := cid card_data; th_fullname := th_fullname card_data;
                    en_fullname := en_fullname card_data; dob := dob card_data;
                    gender := gender card_data; issuer := issuer card_data;
                    issue_date := issue_date card_data;
                    expire_date := expire_date card_data;
                    address := address card_data;
                    photo_bytes := photo |})
    /\ (snd (dev_disconnect dev (dstate wf)) = None ->
        exists wr r, read_card dev (init_world s0) = (wr, Ok r)
                     /\ photo_bytes r = photo).
Proof.
  intros Hc Ho Hf Hok Hcase.
  assert (Hloop : exists wf,
             photo_loop dev conn (segment_indices 20) [] w2
             = (wf, Ok (List.concat ds))).
  { destruct Hcase as [Hall|[Hlt (w4 & msg & Hfail)]].
    - exists w3; exact (photo_loop_exhausted dev conn 20 ds w2 w3 Hok Hall).
    - exists w4.
      exact (photo_loop_stops dev conn 20 ds w2 w3 w4 _ Hok Hlt
               (photo_segment_try_raises dev conn _ _ _ _ _ Hfail)). }
  destruct Hloop as [wf Hloop].
  exists wf, (if (List.length (List.concat ds) <? 1024)%nat then None
              else Some (List.concat ds)).
  split.
  { unfold _read_photo, bind; rewrite Hloop.
    destruct (List.length (List.concat ds) <? 1024)%nat; reflexivity. }
  split.
  { intros Hlt; apply Nat.ltb_lt in Hlt; rewrite Hlt; reflexivity. }
  split.
  { intros Hge; apply Nat.ltb_ge in Hge; rewrite Hge; reflexivity. }
  split.
  { exact (read_card_body_run_photo dev wc w1 w2 wf conn card_data ds
             Ho Hf Hloop). }
  intros Hrel.
  rewrite (read_card_run dev s0 wc w1 conn Hc Ho), Hf.
  unfold _read_photo, bind; rewrite Hloop.
  unfold finally_outcome.
  destruct (List.length (List.concat ds) <? 1024)%nat;
    cbv beta iota delta [ret]; rewrite Hrel; eexists; eexists;
    (split; [reflexivity|]); reflexivity.
Qed.

Lemma photo_is_whole_buffer_or_absent_witness :
  exists wf r,
    read_card sim_device
      (sim_start [0x3B; 0x68]
         (sim_fields_script [0x31; 0x32] ++ sim_photo_script))
    = (wf, Ok r)
    /\ photo_bytes r = Some (List.concat sim_five_segments)
    /\ List.length (List.concat sim_five_segments) = 1275%nat.
Proof.
  edestruct (@photo_is_whole_buffer_or_absent sim sim_device
               {| sim_atr := [0x3B; 0x68];
                  sim_script := sim_fields_script [0x31; 0x32]
                                ++ sim_photo_script |})
    with (ds := sim_five_segments)
    as (wf & photo & _ & _ & Hsome & _ & Hrun).
  - vm_compute; reflexivity.
  - vm_compute; reflexivity.
  - vm_compute; reflexivity.
  - repeat (eapply segments_ok_cons; [vm_compute; reflexivity | reflexivity |]).
    apply segments_ok_nil.
  - right; split; [simpl; lia|].
    eexists; eexists; vm_compute; reflexivity.
  - destruct Hrun as (wr & r & Hrun & Hphoto).
    + destruct wf as [swf twf]; destruct swf; reflexivity.
    + exists wr, r; split; [exact Hrun|].
      split; [|reflexivity].
      rewrite Hphoto; apply Hsome.
      apply Nat.leb_le; vm_compute; reflexivity.
Defined.

(* ================================================================== *)
(** * Further properties of the decoders *)

Section MoreStripFacts.

Lemma no_outer_space_ends (s : pystr) :
  (forall c t, s = c :: t -> isspace c = false) ->
  (forall t c, s = t ++ [c] -> isspace c = false) ->
  no_outer_space s = true.
Proof.
  intros Hhead Hlast; unfold no_outer_space.
  destruct s as [|c t]; [reflexivity|].
  destruct (rev (c :: t)) as [|d u] eqn:Hrev; [reflexivity|].
  rewrite (Hhead c t eq_refl).
  rewrite (Hlast (rev u) d); [reflexivity|].
  rewrite <- (rev_involutive (c :: t)), Hrev; reflexivity.
Qed.

Lemma no_outer_space_strip (s : pystr) : no_outer_space (strip s) = true.
Proof.
  apply no_outer_space_ends.
  - intros c t H; exact (strip_head _ _ _ H).
  - intros t c H; exact (strip_last _ _ _ H).
Qed.

Lemma strip_idempotent (s : pystr) : strip (strip s) = strip s.
Proof. apply strip_fix, no_outer_space_strip. Qed.

Lemma thai2unicode_ok_inv (data : list Z) (out : pystr) :
  thai2unicode data = Ok out ->
  out = strip (replace HASH SPACE (decode_tis_620_replace data)).
Proof.
  unfold thai2unicode, bytes_of.
  destruct (forallb in_byte_range data); [|discriminate].
  intros H; injection H as <-; reflexivity.
Qed.

Lemma thai2unicode_clean (data : list Z) (out : pystr) :
  thai2unicode data = Ok out -> clean_text out.
Proof.
  intros H; apply thai2unicode_ok_inv in H; subst out.
  split; [|apply no_outer_space_strip].
  intros Hin.
  apply (replace_removes HASH SPACE (decode_tis_620_replace data));
    [discriminate|].
  destruct (strip_split (replace HASH SPACE (decode_tis_620_replace data)))
    as (l & r & Heq & _).
  rewrite Heq; apply in_or_app; right; apply in_or_app; left; exact Hin.
Qed.

Lemma forallb_strip (p : N -> bool) (s : pystr) :
  forallb p s = true -> forallb p (strip s) = true.
Proof.
  intros H.
  destruct (strip_split s) as (l & r & Heq & _).
  rewrite Heq, !forallb_app in H.
  apply andb_true_iff in H; destruct H as [_ H].
  apply andb_true_iff in H; destruct H as [H _]; exact H.
Qed.

End MoreStripFacts.

(** X1. A text decoded from the card is already stripped, so the date
    formatter leaves it as it is unless it is eight characters that are
    all digits, which it turns into day, month and year separated by
    slashes. *)
Theorem format_date_of_decoded_text (isdigit_char : N -> bool)
  (data : list Z) (out : pystr) :
  thai2unicode data = Ok out ->
  strip out = out
  /\ format_date isdigit_char out =
     if Nat.eqb (List.length out) 8 && isdigit isdigit_char out
     then reformatted out else out.
Proof.
  intros H; apply thai2unicode_ok_inv in H.
  assert (Hs : strip out = out) by (rewrite H; apply strip_idempotent).
  split; [exact Hs|].
  unfold format_date; rewrite Hs; reflexivity.
Qed.

Lemma format_date_of_decoded_text_witness :
  format_date is_ascii_digit (lit "25341231") = lit "31/12/2534".
Proof.
  destruct (format_date_of_decoded_text is_ascii_digit
              [0x32; 0x35; 0x33; 0x34; 0x31; 0x32; 0x33; 0x31; 0x20; 0x23]
              (lit "25341231") eq_refl) as [_ H].
  exact H.
Defined.

(** X2. Formatting a date twice is the same as formatting it once, as
    long as no digit character is a white-space character. *)
Theorem format_date_idempotent (isdigit_char : N -> bool) (s : pystr) :
  (forall c, isdigit_char c = true -> isspace c = false) ->
  format_date isdigit_char (format_date isdigit_char s)
  = format_date isdigit_char s.
Proof.
  intros Hd.
  assert (Hf : forall x,
             format_date isdigit_char x =
             if Nat.eqb (List.length (strip x)) 8
                && isdigit isdigit_char (strip x)
             then reformatted (strip x) else strip x) by reflexivity.
  rewrite (Hf s).
  remember (strip s) as t eqn:Ht.
  destruct (Nat.eqb (List.length t) 8 && isdigit isdigit_char t) eqn:Hc.
  - apply andb_true_iff in Hc; destruct Hc as [Hlen Hdig].
    destruct t as [|y1 [|y2 [|y3 [|y4 [|m1 [|m2 [|d1 [|d2 [|x t]]]]]]]]];
      try discriminate.
    simpl in Hdig.
    repeat (apply andb_true_iff in Hdig; destruct Hdig as [? Hdig]).
    rewrite Hf.
    assert (Hs : strip (reformatted [y1; y2; y3; y4; m1; m2; d1; d2])
                 = reformatted [y1; y2; y3; y4; m1; m2; d1; d2]).
    { apply strip_fix; unfold no_outer_space; simpl.
      rewrite (Hd d1), (Hd y4) by assumption; reflexivity. }
    rewrite Hs; reflexivity.
  - rewrite Hf, Ht, strip_idempotent, <- Ht, Hc; reflexivity.
Qed.

Lemma format_date_idempotent_witness :
  format_date is_ascii_digit (format_date is_ascii_digit (lit " 25500907 "))
  = lit "07/09/2550".
Proof.
  rewrite (format_date_idempotent is_ascii_digit (lit " 25500907 ")).
  - reflexivity.
  - exact ascii_digit_not_space.
Defined.

(** X3. The legacy-text decoder raises exactly when some item of its
    input is not a byte, and what it raises then is a [ValueError]. *)
Theorem thai2unicode_raises_iff (data : list Z) :
  (exists b, In b data /\ ~ 0 <= b < 256)
  <-> thai2unicode data = Raise (PyError "ValueError").
Proof.
  unfold thai2unicode, bytes_of; split.
  - intros (b & Hin & Hb).
    destruct (forallb in_byte_range data) eqn:Hall; [|reflexivity].
    rewrite forallb_forall in Hall; specialize (Hall b Hin).
    unfold in_byte_range in Hall.
    apply andb_true_iff in Hall; destruct Hall as [H1 H2].
    apply Z.leb_le in H1; apply Z.ltb_lt in H2; lia.
  - destruct (forallb in_byte_range data) eqn:Hall; [discriminate|].
    intros _.
    induction data as [|a data IH]; [discriminate|].
    simpl in Hall; apply andb_false_iff in Hall; destruct Hall as [Ha|Hrest].
    + exists a; split; [left; reflexivity|].
      unfold in_byte_range in Ha.
      apply andb_false_iff in Ha; destruct Ha as [Ha|Ha];
        [apply Z.leb_gt in Ha | apply Z.ltb_ge in Ha]; lia.
    + destruct (IH Hrest) as (b & Hin & Hb).
      exists b; split; [right; exact Hin | exact Hb].
Qed.

(** X4. Printable ASCII bytes other than ['#'] come out of the
    legacy-text decoder as the characters of the same code, none added,
    none removed: a citizen number is decoded digit for digit. *)
Theorem thai2unicode_plain_ascii (data : list Z) :
  forallb plain_ascii data = true ->
  thai2unicode data = Ok (map Z.to_N data).
Proof.
  intros H.
  assert (Hall : forall b, In b data -> 0x21 <= b <= 0x7E /\ b <> 0x23).
  { intros b Hb; rewrite forallb_forall in H; specialize (H b Hb).
    unfold plain_ascii in H.
    apply andb_true_iff in H; destruct H as [H H3].
    apply andb_true_iff in H; destruct H as [H1 H2].
    apply Z.leb_le in H1, H2; apply negb_true_iff, Z.eqb_neq in H3; lia. }
  unfold thai2unicode.
  rewrite bytes_of_in_range
    by (apply Forall_forall; intros b Hb; specialize (Hall b Hb); lia).
  f_equal.
  assert (Hdec : replace HASH SPACE (decode_tis_620_replace data)
                 = map Z.to_N data).
  { unfold replace, decode_tis_620_replace; rewrite map_map.
    apply map_ext_in; intros b Hb; specialize (Hall b Hb).
    unfold tis_620_decoding_table.
    replace ((0x00 <=? b) && (b <=? 0x9F)) with true
      by (symmetry; apply andb_true_iff; split; apply Z.leb_le; lia).
    replace (Z.to_N b =? HASH)%N with false; [reflexivity|].
    symmetry; apply N.eqb_neq; unfold HASH; lia. }
  rewrite Hdec; apply strip_fix.
  assert (Hns : forall c, In c (map Z.to_N data) -> isspace c = false).
  { intros c Hc; apply in_map_iff in Hc; destruct Hc as (b & <- & Hb).
    specialize (Hall b Hb); unfold isspace.
    repeat (apply orb_false_iff; split);
      try (apply andb_false_iff);
      try (apply N.eqb_neq; lia);
      try (left; apply N.leb_gt; lia);
      try (right; apply N.leb_gt; lia). }
  apply no_outer_space_ends.
  - intros c t Heq; apply Hns; rewrite Heq; left; reflexivity.
  - intros t c Heq; apply Hns; rewrite Heq.
    apply in_or_app; right; left; reflexivity.
Qed.

Lemma thai2unicode_plain_ascii_witness :
  thai2unicode [0x31; 0x31; 0x30; 0x33; 0x37] = Ok (lit "11037").
Proof.
  exact (thai2unicode_plain_ascii [0x31; 0x31; 0x30; 0x33; 0x37] eq_refl).
Defined.

(* ================================================================== *)
(** * Further properties of the protocol engine *)

Section BoundFacts.

Context {S : Type}.
Variable dev : device S.

Lemma adds_ret {A : Type} (a : A) : adds_at_most (S := S) 0 (ret a).
Proof.
  intros w w' r H; injection H as <- _.
  exists []; rewrite app_nil_r; repeat split; [constructor | apply le_n].
Qed.

Lemma adds_raise {A : Type} (e : exn) : adds_at_most (S := S) (A := A) 0 (raise e).
Proof.
  intros w w' r H; injection H as <- _.
  exists []; rewrite app_nil_r; repeat split; [constructor | apply le_n].
Qed.

Lemma adds_lift {A : Type} (x : result A) : adds_at_most (S := S) 0 (lift x).
Proof.
  intros w w' r H; injection H as <- _.
  exists []; rewrite app_nil_r; repeat split; [constructor | apply le_n].
Qed.

Lemma adds_bind {A B : Type} (n1 n2 : nat) (m : M S A) (k : A -> M S B) :
  adds_at_most n1 m -> (forall a, adds_at_most n2 (k a)) ->
  adds_at_most (n1 + n2) (bind m k).
Proof.
  intros Hm Hk w w' r H; unfold bind in H.
  destruct (m w) as [w1 [a|e]] eqn:Hmw.
  - destruct (Hm _ _ _ Hmw) as (ev1 & Ht1 & HP1 & Hl1).
    destruct (Hk a _ _ _ H) as (ev2 & Ht2 & HP2 & Hl2).
    exists (ev1 ++ ev2); repeat split.
    + rewrite Ht2, Ht1, app_assoc; reflexivity.
    + apply Forall_app; split; assumption.
    + rewrite length_app; lia.
  - injection H as <- <-.
    destruct (Hm _ _ _ Hmw) as (ev1 & Ht1 & HP1 & Hl1).
    exists ev1; repeat split; [assumption | assumption | lia].
Qed.

Lemma adds_weaken {A : Type} (n n' : nat) (m : M S A) :
  (n <= n')%nat -> adds_at_most n m -> adds_at_most n' m.
Proof.
  intros Hle Hm w w' r H.
  destruct (Hm _ _ _ H) as (evs & Ht & HP & Hl).
  exists evs; repeat split; [assumption | assumption | lia].
Qed.

Lemma adds_transmit (conn : SmartCardConnection) (apdu : list Z) :
  adds_at_most 1 (transmit dev conn apdu).
Proof.
  intros w w' r H; unfold transmit in H.
  exists [EvTransmit apdu].
  destruct (dev_transmit dev (dstate w) apdu) as [s [d a b|k]];
    injection H as <- _;
    (repeat split; [repeat constructor | apply le_n]).
Qed.

Lemma adds_get_data (conn : SmartCardConnection) (cmd : list Z) :
  adds_at_most 2 (_get_data_with_get_response dev conn cmd).
Proof.
  unfold _get_data_with_get_response.
  apply (adds_bind 1 1); [apply adds_transmit|].
  intros [[d sw1] sw2]; cbv zeta.
  apply (adds_bind 0 1); [apply adds_lift|]; intros L.
  apply (adds_bind 0 1).
  { destruct (is_SW_SUCCESS sw1 sw2); [apply adds_ret|].
    destruct (sw1 =? 0x61); [apply adds_ret | apply adds_raise]. }
  intros len.
  apply (adds_bind 1 0); [apply adds_transmit|].
  intros [[data r1] r2].
  destruct (negb (is_SW_SUCCESS r1 r2)); [apply adds_raise | apply adds_ret].
Qed.

Lemma adds_read_fields (conn : SmartCardConnection) (cmds : list APDUCommand) :
  forall card_data,
    adds_at_most (2 * List.length cmds) (read_fields dev conn cmds card_data).
Proof.
  induction cmds as [|c rest IH]; intros card_data.
  - apply adds_ret.
  - cbn [read_fields List.length].
    replace (2 * Datatypes.S (List.length rest))%nat
      with (2 + 2 * List.length rest)%nat by lia.
    apply adds_bind; [|intros result; apply IH].
    unfold _read_field.
    apply (adds_bind 2 0); [apply adds_get_data | intros data; apply adds_lift].
Qed.

Lemma adds_photo_loop (conn : SmartCardConnection) (indices : list Z) :
  forall photo_data,
    adds_at_most (2 * List.length indices)
      (photo_loop dev conn indices photo_data).
Proof.
  induction indices as [|i rest IH]; intros photo_data.
  - apply adds_ret.
  - cbn [photo_loop List.length]; intros w w' r H.
    assert (Htry : adds_at_most (2 + 0) (photo_segment_try dev conn i photo_data)).
    { unfold photo_segment_try; cbv zeta.
      apply adds_bind; [apply adds_get_data | intros d; apply adds_lift]. }
    destruct (photo_segment_try dev conn i photo_data w)
      as [w1 [d|e]] eqn:Hread;
      destruct (Htry _ _ _ Hread) as (ev1 & Ht1 & HP1 & Hl1).
    + destruct (IH _ _ _ _ H) as (ev2 & Ht2 & HP2 & Hl2).
      exists (ev1 ++ ev2); repeat split.
      * rewrite Ht2, Ht1, app_assoc; reflexivity.
      * apply Forall_app; split; assumption.
      * rewrite length_app; lia.
    + exists ev1; destruct e; injection H as <- _;
        (repeat split; [assumption | assumption | lia]).
Qed.

Lemma adds_read_photo (conn : SmartCardConnection) (segments : nat) :
  adds_at_most (2 * segments) (_read_photo dev conn segments).
Proof.
  unfold _read_photo.
  replace (2 * segments)%nat
    with (2 * List.length (segment_indices segments) + 0)%nat
    by (unfold segment_indices; rewrite length_map, length_seq; lia).
  apply adds_bind; [apply adds_photo_loop|].
  intros photo_data.
  destruct (List.length photo_data <? 1024)%nat; apply adds_ret.
Qed.

(** The applet selection: the select command first, then at most one
    continuation. *)
Lemma select_applet_trace (conn : SmartCardConnection) (w w' : world S)
  (r : result unit) :
  select_applet dev conn w = (w', r) ->
  exists evs,
    trace w' = trace w ++ EvTransmit (APDU_SELECT_COMMAND ++ APDU_APPLET_ID) :: evs
    /\ Forall transmit_event evs /\ (List.length evs <= 1)%nat.
Proof.
  unfold select_applet, bind, transmit, record_event; cbv zeta.
  destruct (dev_transmit dev (dstate w) (APDU_SELECT_COMMAND ++ APDU_APPLET_ID))
    as [s1 [d sw1 sw2|k]].
  2:{ intros H; injection H as <- _.
      exists []; repeat split; [constructor | cbn; lia]. }
  destruct (is_SW_SUCCESS sw1 sw2).
  { intros H; injection H as <- _.
    exists []; repeat split; [constructor | cbn; lia]. }
  destruct (sw1 =? 0x61).
  2:{ intros H; injection H as <- _.
      exists []; repeat split; [constructor | cbn; lia]. }
  cbn [dstate trace].
  destruct (dev_transmit dev s1 (get_response_apdu_prefix conn ++ [sw2]))
    as [s2 [d' r1 r2|k]].
  - destruct (negb (is_SW_SUCCESS r1 r2)); intros H; injection H as <- _;
      exists [EvTransmit (get_response_apdu_prefix conn ++ [sw2])];
      cbn [trace]; rewrite <- app_assoc;
      (repeat split; [repeat constructor | apply le_n]).
  - intros H; injection H as <- _.
    exists [EvTransmit (get_response_apdu_prefix conn ++ [sw2])];
      cbn [trace]; rewrite <- app_assoc;
      (repeat split; [repeat constructor | apply le_n]).
Qed.

(** The trace of a whole run. *)
Lemma read_card_trace_shape (s0 : S) :
  let t := trace (fst (read_card dev (init_world s0))) in
  t = [EvCreateConnection]
  \/ t = [EvCreateConnection; EvConnect; EvDisconnect]
  \/ t = [EvCreateConnection; EvConnect; EvGetATRRaised; EvDisconnect]
  \/ exists atr evs,
      t = [EvCreateConnection; EvConnect; EvGetATR atr;
           EvTransmit (APDU_SELECT_COMMAND ++ APDU_APPLET_ID)]
          ++ evs ++ [EvDisconnect]
      /\ Forall transmit_event evs /\ (List.length evs <= 59)%nat.
Proof.
  unfold read_card.
  destruct (createConnection dev (init_world s0)) as [wc rc] eqn:Hc.
  pose proof (createConnection_trace _ _ _ _ Hc) as Htc; simpl in Htc.
  destruct rc as [[]|e]; [|left; exact Htc].
  right.
  rewrite finally_disconnect_run.
  destruct (read_card_body dev new_SmartCardConnection wc) as [w2 r2] eqn:Hb.
  cbn [fst after_disconnect trace].
  rewrite read_card_body_run, connect_run in Hb.
  destruct (dev_connect dev (dstate wc)) as [s1 [k|]].
  { injection Hb as <- _; left; cbn [trace]; rewrite Htc; reflexivity. }
  right.
  destruct (dev_getATR dev s1) as [atr|k].
  2:{ injection Hb as <- _; left; cbn [trace]; rewrite Htc; reflexivity. }
  right.
  set (conn := {| get_response_apdu_prefix := prefix_of_atr atr |}) in Hb.
  unfold bind at 1 in Hb.
  destruct (select_applet dev conn _) as [w3 rs] eqn:Hsel.
  destruct (select_applet_trace _ _ _ _ Hsel) as (ev1 & Ht1 & HP1 & Hl1).
  cbn [trace] in Ht1.
  exists atr.
  destruct rs as [[]|e].
  - assert (Hrest : adds_at_most (2 * 9 + (2 * 20 + 0))
              (card_data <- read_fields dev conn commands new_IDCardData ;;
               photo <- _read_photo dev conn 20 ;;
               ret (set_photo_bytes card_data photo))).
    { apply adds_bind; [apply (adds_read_fields conn commands)|].
      intros cd; apply adds_bind; [apply adds_read_photo|].
      intros photo; apply adds_ret. }
    destruct (Hrest _ _ _ Hb) as (ev2 & Ht2 & HP2 & Hl2).
    exists (ev1 ++ ev2); repeat split.
    + rewrite Ht2, Ht1, Htc; cbn [app].
      rewrite <- ?app_assoc; reflexivity.
    + apply Forall_app; split; assumption.
    + rewrite length_app; lia.
  - injection Hb as <- _.
    exists ev1; repeat split; [|assumption | lia].
    rewrite Ht1, Htc; cbn [app]; rewrite <- ?app_assoc; reflexivity.
Qed.

End BoundFacts.

Section RunFacts.

Context {S : Type}.
Variable dev : device S.

Lemma emits_read_card_body_no_disconnect (conn0 : SmartCardConnection) :
  emits not_disconnect (read_card_body dev conn0).
Proof.
  unfold read_card_body.
  apply emits_bind; [apply emits_open_session_no_disconnect|].
  intros conn; apply emits_bind.
  { apply emits_read_fields; intros; reflexivity. }
  intros card_data; apply emits_bind.
  { apply emits_read_photo; intros; reflexivity. }
  intros photo; apply emits_ret.
Qed.

Lemma filter_transmits_all (evs : list event) :
  Forall transmit_event evs -> filter is_transmit evs = evs.
Proof.
  induction 1 as [|e evs He _ IH]; simpl; [reflexivity|].
  unfold transmit_event in He; rewrite He, IH; reflexivity.
Qed.

(** What a successful run went through. *)
Lemma read_card_ok_inv (w0 wf : world S) (r : IDCardData) :
  read_card dev w0 = (wf, Ok r) ->
  exists wc w1 w2 w3 conn card_data photo,
    createConnection dev w0 = (wc, Ok tt)
    /\ open_session dev new_SmartCardConnection wc = (w1, Ok conn)
    /\ read_fields dev conn commands new_IDCardData w1 = (w2, Ok card_data)
    /\ _read_photo dev conn 20 w2 = (w3, Ok photo)
    /\ r = set_photo_bytes card_data photo.
Proof.
  unfold read_card.
  destruct (createConnection dev w0) as [wc [[]|e]] eqn:Hc; [|discriminate].
  rewrite finally_disconnect_run.
  unfold read_card_body, bind.
  destruct (open_session dev new_SmartCardConnection wc) as [w1 [conn|e]]
    eqn:Ho.
  2:{ unfold finally_outcome; cbn [fst snd].
      destruct (snd (dev_disconnect dev (dstate w1))); discriminate. }
  destruct (read_fields dev conn commands new_IDCardData w1)
    as [w2 [card_data|e]] eqn:Hf.
  2:{ unfold finally_outcome; cbn [fst snd].
      destruct (snd (dev_disconnect dev (dstate w2))); discriminate. }
  destruct (_read_photo dev conn 20 w2) as [w3 [photo|e]] eqn:Hp.
  2:{ unfold finally_outcome; cbn [fst snd].
      destruct (snd (dev_disconnect dev (dstate w3))); discriminate. }
  unfold ret, finally_outcome; cbn [fst snd].
  destruct (snd (dev_disconnect dev (dstate w3))); [discriminate|].
  intros H; injection H as _ <-.
  exists wc, w1, w2, w3, conn, card_data, photo.
  repeat split; assumption.
Qed.

End RunFacts.

(** X5. When [createConnection] raises, [read_card] raises the same
    exception and makes no other call: nothing is released, for nothing
    was opened. In every other run, whether it ends with a record or an
    exception, the connection is released exactly once, and the release
    is the last call made. *)
Theorem read_card_releases_exactly_once {S : Type} (dev : device S) (s0 : S) :
  match dev_createConnection dev s0 with
  | (s1, Some kind) =>
      read_card dev (init_world s0)
      = ({| dstate := s1; trace := [EvCreateConnection] |}, Raise (PyError kind))
  | (_, None) =>
      count_disconnects (trace (fst (read_card dev (init_world s0)))) = 1%nat
      /\ exists t,
          trace (fst (read_card dev (init_world s0))) = t ++ [EvDisconnect]
  end.
Proof.
  unfold read_card.
  destruct (createConnection dev (init_world s0)) as [wc rc] eqn:Hc.
  pose proof (createConnection_trace _ _ _ _ Hc) as Htc; simpl in Htc.
  unfold createConnection in Hc; cbn [init_world dstate] in Hc.
  destruct (dev_createConnection dev s0) as [s1 [kind|]];
    injection Hc as <- <-; [reflexivity|].
  rewrite finally_disconnect_run.
  destruct (read_card_body dev new_SmartCardConnection _) as [w2 r2] eqn:Hb.
  cbn [fst after_disconnect trace].
  destruct (emits_read_card_body_no_disconnect dev _ _ _ _ Hb)
    as (evs & Ht & HP).
  split; [|exists (trace w2); reflexivity].
  unfold count_disconnects; rewrite filter_app, length_app.
  fold (count_disconnects (trace w2)).
  rewrite Ht, count_disconnects_app by exact HP.
  reflexivity.
Qed.

(** X6. The calls of a run come in a fixed order. Either
    [createConnection] is the only call; or [connect] follows and
    raises, and the connection is released; or the reading of the ATR
    follows and raises, and the connection is released; or the ATR is
    read, the first transmission is the applet selection, only
    transmissions follow, and the release comes last. Nothing is
    transmitted before the ATR is read. *)
Theorem read_card_call_order {S : Type} (dev : device S) (s0 : S) :
  let t := trace (fst (read_card dev (init_world s0))) in
  t = [EvCreateConnection]
  \/ t = [EvCreateConnection; EvConnect; EvDisconnect]
  \/ t = [EvCreateConnection; EvConnect; EvGetATRRaised; EvDisconnect]
  \/ exists atr evs,
      t = [EvCreateConnection; EvConnect; EvGetATR atr;
           EvTransmit [0x00; 0xA4; 0x04; 0x00; 0x08;
                       0xA0; 0x00; 0x00; 0x00; 0x54; 0x48; 0x00; 0x01]]
          ++ evs ++ [EvDisconnect]
      /\ Forall transmit_event evs.
Proof.
  destruct (read_card_trace_shape dev s0)
    as [H|[H|[H|(atr & evs & H & HP & _)]]].
  - left; exact H.
  - right; left; exact H.
  - right; right; left; exact H.
  - right; right; right; exists atr, evs; split; [exact H | exact HP].
Qed.

(** X7. A run of [read_card] transmits at most sixty commands: two for
    the selection, two for each of the nine fields, two for each of the
    twenty photo segments. *)
Theorem read_card_transmits_at_most_sixty {S : Type} (dev : device S) (s0 : S) :
  (count_transmits (trace (fst (read_card dev (init_world s0)))) <= 60)%nat.
Proof.
  destruct (read_card_trace_shape dev s0)
    as [H|[H|[H|(atr & evs & H & HP & Hl)]]];
    rewrite H; unfold count_transmits.
  - cbn; lia.
  - cbn; lia.
  - cbn; lia.
  - rewrite !filter_app, !length_app, (filter_transmits_all evs HP).
    cbn [filter is_transmit List.length]; lia.
Qed.

(** X8. When the applet selection returns a status word that is neither
    success nor more-data, the [try] block of [read_card] raises the
    protocol error ["Failed to select applet: SW1 SW2"]; the selection
    is the only transmission, no field is read, and the connection is
    released. [read_card] raises that protocol error when the release
    returns, and the exception of the release when the release raises. *)
Theorem select_failure_aborts_read {S : Type} (dev : device S)
  (s0 s1 s2 s3 : S) (atr d : list Z) (sw1 sw2 : Z) :
  dev_createConnection dev s0 = (s1, None) ->
  dev_connect dev s1 = (s2, None) ->
  dev_getATR dev s2 = ATR atr ->
  dev_transmit dev s2 (APDU_SELECT_COMMAND ++ APDU_APPLET_ID)
  = (s3, Response d sw1 sw2) ->
  bad_status sw1 sw2 ->
  read_card dev (init_world s0)
  = ({| dstate := fst (dev_disconnect dev s3);
        trace := [EvCreateConnection; EvConnect; EvGetATR atr;
                  EvTransmit (APDU_SELECT_COMMAND ++ APDU_APPLET_ID);
                  EvDisconnect] |},
     match snd (dev_disconnect dev s3) with
     | None =>
         Raise (SmartCardError
                  ("Failed to select applet: "
                     ++ format_02X sw1 ++ " " ++ format_02X sw2)%string)
     | Some kind => Raise (PyError kind)
     end).
Proof.
  intros Hc Hk Hatr Htx [Hns H61].
  apply Z.eqb_neq in H61.
  unfold read_card, createConnection; cbn [init_world dstate trace].
  rewrite Hc, finally_disconnect_run.
  rewrite read_card_body_run, connect_run.
  cbn [dstate trace]; rewrite Hk, Hatr.
  unfold bind at 1.
  unfold select_applet, bind, transmit; cbv zeta; cbn [dstate trace].
  rewrite Htx, Hns, H61.
  reflexivity.
Qed.

Lemma select_failure_aborts_read_witness :
  snd (read_card sim_device (sim_start [0x3B; 0x67] [Response [] 0x6A 0x82]))
  = Raise (SmartCardError "Failed to select applet: 6A 82").
Proof.
  unfold sim_start.
  rewrite (select_failure_aborts_read sim_device
             {| sim_atr := [0x3B; 0x67]; sim_script := [Response [] 0x6A 0x82] |}
             _ _ _ [0x3B; 0x67] [] 0x6A 0x82 eq_refl eq_refl eq_refl eq_refl).
  - reflexivity.
  - split; [reflexivity | discriminate].
Defined.

(** X9. When the applet selection returns more-data [(61, n)], one
    continuation asking for [n] bytes is sent with the prefix chosen
    from the ATR. Unless that continuation returns success (a further
    more-data is no success), the [try] block of [read_card] raises the
    protocol error
    ["Failed to select applet (GET RESPONSE failed): SW1 SW2"], no field
    is read and the connection is released. [read_card] raises that
    protocol error when the release returns, and the exception of the
    release when the release raises. *)
Theorem select_continuation_failure_aborts_read {S : Type} (dev : device S)
  (s0 s1 s2 s3 s4 : S) (atr d d' : list Z) (n r1 r2 : Z) :
  dev_createConnection dev s0 = (s1, None) ->
  dev_connect dev s1 = (s2, None) ->
  dev_getATR dev s2 = ATR atr ->
  dev_transmit dev s2 (APDU_SELECT_COMMAND ++ APDU_APPLET_ID)
  = (s3, Response d 0x61 n) ->
  dev_transmit dev s3 (prefix_of_atr atr ++ [n]) = (s4, Response d' r1 r2) ->
  is_SW_SUCCESS r1 r2 = false ->
  read_card dev (init_world s0)
  = ({| dstate := fst (dev_disconnect dev s4);
        trace := [EvCreateConnection; EvConnect; EvGetATR atr;
                  EvTransmit (APDU_SELECT_COMMAND ++ APDU_APPLET_ID);
                  EvTransmit (prefix_of_atr atr ++ [n]);
                  EvDisconnect] |},
     match snd (dev_disconnect dev s4) with
     | None =>
         Raise (SmartCardError
                  ("Failed to select applet (GET RESPONSE failed): "
                     ++ format_02X r1 ++ " " ++ format_02X r2)%string)
     | Some kind => Raise (PyError kind)
     end).
Proof.
  intros Hc Hk Hatr Htx Htx2 Hns.
  unfold read_card, createConnection; cbn [init_world dstate trace].
  rewrite Hc, finally_disconnect_run.
  rewrite read_card_body_run, connect_run.
  cbn [dstate trace]; rewrite Hk, Hatr.
  unfold bind at 1.
  unfold select_applet, bind, transmit; cbv zeta; cbn [dstate trace].
  rewrite Htx.
  change (is_SW_SUCCESS 0x61 n) with false.
  cbn [Z.eqb Pos.eqb dstate trace get_response_apdu_prefix].
  rewrite Htx2, Hns.
  reflexivity.
Qed.

Lemma select_continuation_failure_aborts_read_witness :
  read_card sim_device
    (sim_start [0x3B; 0x67] [Response [] 0x61 0x10; Response [] 0x61 0x10])
  = ({| dstate := {| sim_atr := [0x3B; 0x67]; sim_script := [] |};
        trace := [EvCreateConnection; EvConnect; EvGetATR [0x3B; 0x67];
                  EvTransmit [0x00; 0xA4; 0x04; 0x00; 0x08;
                              0xA0; 0x00; 0x00; 0x00; 0x54; 0x48; 0x00; 0x01];
                  EvTransmit [0x00; 0xC0; 0x00; 0x01; 0x10];
                  EvDisconnect] |},
     Raise (SmartCardError
              "Failed to select applet (GET RESPONSE failed): 61 10")).
Proof.
  exact (select_continuation_failure_aborts_read sim_device
           {| sim_atr := [0x3B; 0x67];
              sim_script := [Response [] 0x61 0x10; Response [] 0x61 0x10] |}
           _ _ _ _ [0x3B; 0x67] [] [] 0x10 0x61 0x10
           eq_refl eq_refl eq_refl eq_refl eq_refl eq_refl).
Defined.

Section RecordFacts.

Context {S : Type}.
Variable dev : device S.

Lemma photo_loop_absorbs (conn : SmartCardConnection) (indices : list Z) :
  forall photo_data w,
    match snd (photo_loop dev conn indices photo_data w) with
    | Ok _ => True
    | Raise e => is_SmartCardError e = false
    end.
Proof.
  induction indices as [|i rest IH]; intros photo_data w; cbn [photo_loop].
  - exact I.
  - destruct (photo_segment_try dev conn i photo_data w) as [w1 [d|[msg|k]]].
    + apply IH.
    + exact I.
    + reflexivity.
Qed.

Lemma clean_text_empty : clean_text [].
Proof. split; [intros [] | reflexivity]. Qed.

Lemma setattr_clean (d : IDCardData) (l : string) (v : pystr) :
  clean_record d -> clean_text v -> clean_record (setattr d l v).
Proof.
  intros ([] & [] & [] & [] & [] & [] & [] & [] & []) [].
  unfold setattr.
  repeat match goal with
         | |- clean_record (if ?c then _ else _) => destruct c
         end;
    unfold clean_record; cbn; repeat split; assumption.
Qed.

Lemma commands_decoder (cmd : APDUCommand) :
  In cmd commands -> decoder cmd = thai2unicode.
Proof.
  intros Hin; simpl in Hin.
  repeat (destruct Hin as [<-|Hin]; [reflexivity|]).
  destruct Hin.
Qed.

Lemma read_field_ok_inv (conn : SmartCardConnection) (cmd : APDUCommand)
  (w w' : world S) (out : pystr) :
  _read_field dev conn cmd w = (w', Ok out) ->
  exists data,
    _get_data_with_get_response dev conn (ins cmd) w = (w', Ok data)
    /\ decoder cmd data = Ok out.
Proof.
  unfold _read_field, bind, lift.
  destruct (_get_data_with_get_response dev conn (ins cmd) w)
    as [w1 [data|e]]; [|discriminate].
  intros H; injection H as <- H.
  exists data; split; [reflexivity | exact H].
Qed.

Lemma read_fields_clean (conn : SmartCardConnection) (cmds : list APDUCommand) :
  (forall c, In c cmds -> decoder c = thai2unicode) ->
  forall card_data w w' card_data',
    clean_record card_data ->
    read_fields dev conn cmds card_data w = (w', Ok card_data') ->
    clean_record card_data'.
Proof.
  intros Hdec.
  induction cmds as [|c rest IH]; intros card_data w w' card_data' Hclean Hrun.
  - injection Hrun as _ <-; exact Hclean.
  - cbn [read_fields] in Hrun; unfold bind in Hrun.
    destruct (_read_field dev conn c w) as [w1 [out|e]] eqn:Hfield;
      [|discriminate].
    destruct (read_field_ok_inv _ _ _ _ _ Hfield) as (data & _ & Hout).
    rewrite (Hdec c (or_introl eq_refl)) in Hout.
    apply (IH (fun c' Hc' => Hdec c' (or_intror Hc')) _ _ _ _
              (setattr_clean _ _ _ Hclean (thai2unicode_clean _ _ Hout)) Hrun).
Qed.

Lemma read_fields_outputs (conn : SmartCardConnection)
  (cmds : list APDUCommand) (outs : list pystr) (w w' : world S) :
  fields_ok dev conn cmds outs w w' ->
  forall card_data,
    read_fields dev conn cmds card_data w
    = (w', Ok (fold_left (fun d co => setattr d (label (fst co)) (snd co))
                 (combine cmds outs) card_data)).
Proof.
  induction 1 as [w|cmd cmds out outs w w1 w2 Hread _ IH]; intros card_data.
  - reflexivity.
  - cbn [read_fields combine fold_left fst snd]; unfold bind.
    rewrite Hread; apply IH.
Qed.

Lemma fields_ok_length (conn : SmartCardConnection)
  (cmds : list APDUCommand) (outs : list pystr) (w w' : world S) :
  fields_ok dev conn cmds outs w w' -> List.length outs = List.length cmds.
Proof. induction 1; simpl; congruence. Qed.

Lemma read_photo_cases (conn : SmartCardConnection) (segments : nat)
  (w : world S) :
  match snd (_read_photo dev conn segments w) with
  | Ok None => True
  | Ok (Some photo) => (1024 <= List.length photo)%nat
  | Raise e => is_SmartCardError e = false
  end.
Proof.
  unfold _read_photo, bind.
  pose proof (photo_loop_absorbs conn (segment_indices segments) [] w) as H.
  destruct (photo_loop dev conn (segment_indices segments) [] w)
    as [w1 [photo_data|e]]; cbn [snd] in H |- *; [|exact H].
  destruct (Nat.ltb_spec (List.length photo_data) 1024); cbn; [exact I | lia].
Qed.

End RecordFacts.

(** X10. The photo read never raises a protocol error, whatever the card
    answers: it returns no photo, or a photo of at least 1024 bytes, or
    raises an exception of another class. *)
Theorem read_photo_outcome {S : Type} (dev : device S)
  (conn : SmartCardConnection) (segments : nat) (w : world S) :
  match snd (_read_photo dev conn segments w) with
  | Ok None => True
  | Ok (Some photo) => (1024 <= List.length photo)%nat
  | Raise e => is_SmartCardError e = false
  end.
Proof.
  unfold _read_photo, bind.
  pose proof (photo_loop_absorbs dev conn (segment_indices segments) [] w) as H.
  destruct (photo_loop dev conn (segment_indices segments) [] w)
    as [w1 [photo_data|e]]; cbn [snd] in H |- *; [|exact H].
  destruct (Nat.ltb_spec (List.length photo_data) 1024); cbn; [exact I | lia].
Qed.

(** X11. Every record that [read_card] returns is well formed: none of
    its nine texts holds a ['#'] or starts or ends with white space, and
    its photo is either absent or at least 1024 bytes long. *)
Theorem read_card_record_well_formed {S : Type} (dev : device S) (s0 : S) :
  match snd (read_card dev (init_world s0)) with
  | Ok r =>
      clean_record r
      /\ match photo_bytes r with
         | Some photo => (1024 <= List.length photo)%nat
         | None => True
         end
  | Raise _ => True
  end.
Proof.
  destruct (read_card dev (init_world s0)) as [wf [r|e]] eqn:Hrun;
    cbn [snd]; [|exact I].
  destruct (read_card_ok_inv dev _ _ _ Hrun)
    as (wc & w1 & w2 & w3 & conn & cd & photo & _ & _ & Hf & Hp & ->).
  split.
  - assert (Hcd : clean_record cd).
    { apply (read_fields_clean dev conn commands commands_decoder
               new_IDCardData w1 w2 cd); [|exact Hf].
      unfold clean_record; cbn; repeat split; apply clean_text_empty. }
    exact Hcd.
  - cbn [photo_bytes set_photo_bytes].
    pose proof (read_photo_cases dev conn 20 w2) as H.
    rewrite Hp in H; cbn [snd] in H.
    destruct photo; exact H.
Qed.

(** X12. When the nine field reads succeed, the record holds the nine
    decoded texts each under its own name, in the order of the catalog:
    citizen number, Thai name, English name, date of birth, gender,
    issuer, issue date, expiry date, address. No text lands in the field
    of another, and the photo is not yet set. *)
Theorem read_fields_binds_labels {S : Type} (dev : device S)
  (conn : SmartCardConnection) (w w' : world S) (outs : list pystr) :
  fields_ok dev conn commands outs w w' ->
  exists o1 o2 o3 o4 o5 o6 o7 o8 o9,
    outs = [o1; o2; o3; o4; o5; o6; o7; o8; o9]
    /\ read_fields dev conn commands new_IDCardData w
       = (w', Ok {| cid := o1; th_fullname := o2; en_fullname := o3;
                    dob := o4; gender := o5; issuer := o6;
                    issue_date := o7; expire_date := o8; address := o9;
                    photo_bytes := None |}).
Proof.
  intros Hok.
  pose proof (fields_ok_length dev conn _ _ _ _ Hok) as Hlen.
  rewrite (read_fields_outputs dev conn _ _ _ _ Hok).
  cbn [commands List.length] in Hlen.
  destruct outs as [|o1 [|o2 [|o3 [|o4 [|o5 [|o6 [|o7 [|o8 [|o9 [|x t]]]]]]]]]];
    try discriminate.
  exists o1, o2, o3, o4, o5, o6, o7, o8, o9; split; reflexivity.
Qed.

Lemma read_fields_binds_labels_witness :
  exists w',
    read_fields sim_device
      {| get_response_apdu_prefix := [0x00; 0xC0; 0x00; 0x00] |}
      commands new_IDCardData
      (sim_start [0x3B; 0x68]
         (List.concat
            (map (fun b => [Response [] 0x61 0x01; Response [b] 0x90 0x00])
               [0x31; 0x32; 0x33; 0x34; 0x35; 0x36; 0x37; 0x38; 0x39])))
    = (w', Ok {| cid := lit "1"; th_fullname := lit "2"; en_fullname := lit "3";
                 dob := lit "4"; gender := lit "5"; issuer := lit "6";
                 issue_date := lit "7"; expire_date := lit "8";
                 address := lit "9"; photo_bytes := None |}).
Proof.
  edestruct (@read_fields_binds_labels sim sim_device
               {| get_response_apdu_prefix := [0x00; 0xC0; 0x00; 0x00] |}
               (sim_start [0x3B; 0x68]
                  (List.concat
                     (map (fun b => [Response [] 0x61 0x01;
                                     Response [b] 0x90 0x00])
                        [0x31; 0x32; 0x33; 0x34; 0x35; 0x36; 0x37; 0x38; 0x39]))))
    with (outs := map (fun c => lit c)
                    ["1"; "2"; "3"; "4"; "5"; "6"; "7"; "8"; "9"]%string)
    as (o1 & o2 & o3 & o4 & o5 & o6 & o7 & o8 & o9 & Houts & Hrun).
  - repeat (eapply fields_ok_cons; [vm_compute; reflexivity|]).
    apply fields_ok_nil.
  - injection Houts as <- <- <- <- <- <- <- <- <-.
    eexists; exact Hrun.
Defined.

Section RoutineFacts.

Context {S : Type}.
Variable dev : device S.

Lemma transmit_ok_inv (conn : SmartCardConnection) (apdu : list Z)
  (w w' : world S) (d : list Z) (sw1 sw2 : Z) :
  transmit dev conn apdu w = (w', Ok (d, sw1, sw2)) ->
  dev_transmit dev (dstate w) apdu = (dstate w', Response d sw1 sw2)
  /\ w' = after_transmit w (dstate w') apdu.
Proof.
  unfold transmit, record_event.
  destruct (dev_transmit dev (dstate w) apdu) as [s [d0 a b|k]];
    [|discriminate].
  intros H; injection H as <- <- <- <-; split; reflexivity.
Qed.

End RoutineFacts.

(** X13. The continuation-read routine only ever returns the response
    data of a continuation that answered success: when it returns
    [data], its command was not empty and was accepted (success or
    more-data), and [data] is what the channel answered, with status
    [90 00], to the continuation command built from the prefix and the
    length. The data sent back with the command itself is never
    returned. *)
Theorem get_data_returns_continuation_data {S : Type} (dev : device S)
  (conn : SmartCardConnection) (cmd : list Z) (w w' : world S)
  (data : list Z) :
  _get_data_with_get_response dev conn cmd w = (w', Ok data) ->
  exists body L s1 d sw1 sw2 len,
    cmd = body ++ [L]
    /\ dev_transmit dev (dstate w) cmd = (s1, Response d sw1 sw2)
    /\ spec_continuation_length L sw1 sw2 = Some len
    /\ dev_transmit dev s1 (get_response_apdu_prefix conn ++ [len])
       = (dstate w', Response data 0x90 0x00)
    /\ trace w' = trace w ++ [EvTransmit cmd;
                              EvTransmit (get_response_apdu_prefix conn ++ [len])].
Proof.
  unfold _get_data_with_get_response, bind at 1.
  destruct (transmit dev conn cmd w) as [w1 [[[d sw1] sw2]|e]] eqn:Htx;
    [|discriminate].
  destruct (transmit_ok_inv dev _ _ _ _ _ _ _ Htx) as [Hdev Hw1].
  cbv zeta; unfold bind at 1, lift.
  destruct (last_item cmd) as [L|e] eqn:HL; [|discriminate].
  destruct (last_item_inv _ _ HL) as [body Hcmd].
  unfold bind at 1.
  assert (Hcont : forall len,
             spec_continuation_length L sw1 sw2 = Some len ->
             (let get_response_apdu := get_response_apdu_prefix conn ++ [len] in
              '(data0, sw3, sw4) <- transmit dev conn get_response_apdu ;;
              if negb (is_SW_SUCCESS sw3 sw4)
              then raise (SmartCardError
                            (get_response_failed_msg get_response_apdu sw3 sw4))
              else ret data0) w1 = (w', Ok data) ->
             exists body L s1 d sw1 sw2 len,
               cmd = body ++ [L]
               /\ dev_transmit dev (dstate w) cmd = (s1, Response d sw1 sw2)
               /\ spec_continuation_length L sw1 sw2 = Some len
               /\ dev_transmit dev s1 (get_response_apdu_prefix conn ++ [len])
                  = (dstate w', Response data 0x90 0x00)
               /\ trace w' = trace w
                             ++ [EvTransmit cmd;
                                 EvTransmit (get_response_apdu_prefix conn ++ [len])]).
  { intros len Hlen; cbv zeta; unfold bind.
    destruct (transmit dev conn (get_response_apdu_prefix conn ++ [len]) w1)
      as [w2 [[[data0 r1] r2]|e]] eqn:Htx2; [|discriminate].
    destruct (transmit_ok_inv dev _ _ _ _ _ _ _ Htx2) as [Hdev2 Hw2].
    destruct (is_SW_SUCCESS r1 r2) eqn:Hs; [|discriminate].
    cbn [negb]; unfold ret; intros H; injection H as <- <-.
    unfold is_SW_SUCCESS in Hs.
    apply andb_true_iff in Hs; destruct Hs as [E1 E2].
    apply Z.eqb_eq in E1, E2; subst r1 r2.
    exists body, L, (dstate w1), d, sw1, sw2, len.
    repeat split; try assumption.
    rewrite Hw2, Hw1; cbn [trace after_transmit].
    rewrite <- app_assoc; reflexivity. }
  unfold spec_continuation_length in Hcont.
  destruct (is_SW_SUCCESS sw1 sw2).
  - exact (Hcont L eq_refl).
  - destruct (sw1 =? 0x61); [exact (Hcont sw2 eq_refl) | discriminate].
Qed.

Lemma get_data_returns_continuation_data_witness :
  exists len,
    dev_transmit sim_device
      {| sim_atr := []; sim_script := [Response [0x41; 0x42] 0x90 0x00] |}
      ([0x00; 0xC0; 0x00; 0x00] ++ [len])
    = ({| sim_atr := []; sim_script := [] |}, Response [0x41; 0x42] 0x90 0x00).
Proof.
  destruct (get_data_returns_continuation_data sim_device
              {| get_response_apdu_prefix := [0x00; 0xC0; 0x00; 0x00] |}
              [0x80; 0xB0; 0x00; 0xE1; 0x02; 0x00; 0x01]
              (sim_start [] [Response [0x00] 0x61 0x02;
                             Response [0x41; 0x42] 0x90 0x00])
              _ [0x41; 0x42] eq_refl)
    as (body & L & s1 & d & sw1 & sw2 & len & _ & Htx & _ & Htx2 & _).
  injection Htx as <- _ _ _.
  exists len; exact Htx2.
Defined.

(** X14. The routine transmits its command first and then at most one
    continuation command: a run adds one transmission to the trace and
    ends in an exception, or adds two. *)
Theorem get_data_transmits_once_or_twice {S : Type} (dev : device S)
  (conn : SmartCardConnection) (cmd : list Z) (w : world S) :
  let w' := fst (_get_data_with_get_response dev conn cmd w) in
  let r := snd (_get_data_with_get_response dev conn cmd w) in
  (trace w' = trace w ++ [EvTransmit cmd] /\ exists e, r = Raise e)
  \/ exists n,
      trace w' = trace w ++ [EvTransmit cmd;
                             EvTransmit (get_response_apdu_prefix conn ++ [n])].
Proof.
  cbv zeta.
  unfold _get_data_with_get_response, bind, transmit, lift, record_event.
  destruct (dev_transmit dev (dstate w) cmd) as [s1 [d sw1 sw2|k]];
    [|left; split; [reflexivity | eexists; reflexivity]].
  destruct (last_item cmd) as [L|e];
    [|left; split; [reflexivity | eexists; reflexivity]].
  assert (Hcont : forall len,
             exists n,
               trace (fst
                 (match dev_transmit dev s1
                          (get_response_apdu_prefix conn ++ [len]) with
                  | (s, Response data a b) =>
                      ({| dstate := s;
                          trace := (trace w ++ [EvTransmit cmd])
                                   ++ [EvTransmit
                                         (get_response_apdu_prefix conn ++ [len])] |},
                       if negb (is_SW_SUCCESS a b)
                       then @Raise (list Z)
                              (SmartCardError
                                 (get_response_failed_msg
                                    (get_response_apdu_prefix conn ++ [len]) a b))
                       else Ok data)
                  | (s, TxRaise k) =>
                      ({| dstate := s;
                          trace := (trace w ++ [EvTransmit cmd])
                                   ++ [EvTransmit
                                         (get_response_apdu_prefix conn ++ [len])] |},
                       Raise (PyError k))
                  end))
               = trace w ++ [EvTransmit cmd;
                             EvTransmit (get_response_apdu_prefix conn ++ [n])]).
  { intros len; exists len.
    destruct (dev_transmit dev s1 (get_response_apdu_prefix conn ++ [len]))
      as [s2 [data a b|k]]; cbn [fst trace]; rewrite <- app_assoc; reflexivity. }
  destruct (is_SW_SUCCESS sw1 sw2).
  - right; destruct (Hcont L) as [n Hn]; exists n.
    rewrite <- Hn; clear Hn.
    unfold ret, raise; cbn [dstate trace].
    destruct (dev_transmit dev s1 (get_response_apdu_prefix conn ++ [L]))
      as [s2 [data a b|k]]; [destruct (negb (is_SW_SUCCESS a b))|];
      reflexivity.
  - destruct (sw1 =? 0x61).
    + right; destruct (Hcont sw2) as [n Hn]; exists n.
      rewrite <- Hn; clear Hn.
      unfold ret, raise; cbn [dstate trace].
      destruct (dev_transmit dev s1 (get_response_apdu_prefix conn ++ [sw2]))
        as [s2 [data a b|k]]; [destruct (negb (is_SW_SUCCESS a b))|];
        reflexivity.
    + left; split; [reflexivity | eexists; reflexivity].
Qed.

(** X15. On the empty command the routine still transmits the empty
    command, and then raises: the [IndexError] of reading the last item
    of the command, whatever the status word answered, or the exception
    of the transmission. No continuation is sent and no protocol error
    is raised. *)
Theorem get_data_empty_command {S : Type} (dev : device S)
  (conn : SmartCardConnection) (w : world S) :
  _get_data_with_get_response dev conn [] w
  = ({| dstate := fst (dev_transmit dev (dstate w) []);
        trace := trace w ++ [EvTransmit []] |},
     match snd (dev_transmit dev (dstate w) []) with
     | Response _ _ _ => Raise (PyError "IndexError")
     | TxRaise kind => Raise (PyError kind)
     end).
Proof.
  unfold _get_data_with_get_response, bind, transmit, lift, record_event.
  destruct (dev_transmit dev (dstate w) []) as [s1 [d sw1 sw2|k]]; reflexivity.
Qed.

(** X16. For a segment index from 0 to 124, which covers the twenty
    segments read, the masks change nothing: the instruction is
    [80 B0 i (7C - i) 02 00 FF], every item of it is a byte, and two
    different indices give two different instructions. *)
Theorem photo_segment_cmd_layout (i : Z) :
  0 <= i <= 0x7C ->
  photo_segment_cmd i = [0x80; 0xB0; i; 0x7C - i; 0x02; 0x00; 0xFF]
  /\ forallb in_byte_range (photo_segment_cmd i) = true
  /\ (forall j, 0 <= j <= 0x7C ->
        photo_segment_cmd i = photo_segment_cmd j -> i = j).
Proof.
  intros Hi.
  assert (Hmask : forall x, 0 <= x <= 0x7C -> Z.land x 0xFF = x).
  { intros x Hx.
    change 0xFF with (Z.ones 8).
    rewrite Z.land_ones by lia.
    apply Z.mod_small; change (2 ^ 8) with 256; lia. }
  assert (Hform : forall x, 0 <= x <= 0x7C ->
             photo_segment_cmd x = [0x80; 0xB0; x; 0x7C - x; 0x02; 0x00; 0xFF]).
  { intros x Hx; unfold photo_segment_cmd; cbv zeta.
    rewrite (Hmask x Hx), (Hmask (0x7C - x)) by lia; reflexivity. }
  split; [exact (Hform i Hi)|].
  split.
  - rewrite (Hform i Hi); cbn [forallb]; unfold in_byte_range.
    repeat (apply andb_true_iff; split);
      try reflexivity; try (apply Z.leb_le; lia); try (apply Z.ltb_lt; lia).
  - intros j Hj Heq.
    rewrite (Hform i Hi), (Hform j Hj) in Heq.
    injection Heq as Heq _; exact Heq.
Qed.

Lemma photo_segment_cmd_layout_witness :
  photo_segment_cmd 20 = [0x80; 0xB0; 0x14; 0x68; 0x02; 0x00; 0xFF].
Proof.
  apply (photo_segment_cmd_layout 20); lia.
Defined.

(** X17. A complete read: when the session opens, the nine field reads
    succeed and all twenty photo segments are read, as lists of bytes,
    the [try] block of [read_card] ends with the record of the nine
    decoded texts, each under its own name, with the photo made of the
    twenty segments in order (absent if they add up to fewer than 1024
    bytes), and the release of the connection is the last call.
    [read_card] returns that record when the release returns, and
    raises the exception of the release when the release raises. *)
Theorem read_card_complete_read {S : Type} (dev : device S) (s0 : S)
  (wc w1 w2 w3 : world S) (conn : SmartCardConnection)
  (o1 o2 o3 o4 o5 o6 o7 o8 o9 : pystr) (ds : list (list Z)) :
  createConnection dev (init_world s0) = (wc, Ok tt) ->
  open_session dev new_SmartCardConnection wc = (w1, Ok conn) ->
  fields_ok dev conn commands [o1; o2; o3; o4; o5; o6; o7; o8; o9] w1 w2 ->
  segments_ok dev conn 1 ds w2 w3 ->
  List.length ds = 20%nat ->
  let record :=
    {| cid := o1; th_fullname := o2; en_fullname := o3; dob := o4;
       gender := o5; issuer := o6; issue_date := o7; expire_date := o8;
       address := o9;
       photo_bytes := if (List.length (List.concat ds) <? 1024)%nat
                      then None else Some (List.concat ds) |} in
  read_card dev (init_world s0)
  = ({| dstate := fst (dev_disconnect dev (dstate w3));
        trace := trace w3 ++ [EvDisconnect] |},
     match snd (dev_disconnect dev (dstate w3)) with
     | None => Ok record
     | Some kind => Raise (PyError kind)
     end).
Proof.
  intros Hc Ho Hf Hs Hlen record; subst record.
  rewrite (read_card_run dev s0 wc w1 conn Hc Ho).
  rewrite (read_fields_outputs dev conn _ _ _ _ Hf).
  unfold _read_photo, bind.
  rewrite (photo_loop_exhausted dev conn 20 ds w2 w3 Hs Hlen).
  destruct (List.length (List.concat ds) <? 1024)%nat; reflexivity.
Qed.

Lemma read_card_complete_read_witness :
  exists wf r,
    read_card sim_device (sim_start [0x3B; 0x67] sim_full_script) = (wf, Ok r)
    /\ cid r = lit "1" /\ address r = lit "9"
    /\ option_map (@List.length Z) (photo_bytes r) = Some 1200%nat.
Proof.
  eexists; eexists; split.
  - eapply (@read_card_complete_read sim sim_device
              {| sim_atr := [0x3B; 0x67]; sim_script := sim_full_script |})
      with (o1 := lit "1") (o2 := lit "2") (o3 := lit "3") (o4 := lit "4")
           (o5 := lit "5") (o6 := lit "6") (o7 := lit "7") (o8 := lit "8")
           (o9 := lit "9")
           (ds := map (fun i => repeat i 60) (segment_indices 20)).
    + vm_compute; reflexivity.
    + vm_compute; reflexivity.
    + repeat (eapply fields_ok_cons; [vm_compute; reflexivity|]).
      apply fields_ok_nil.
    + repeat (eapply segments_ok_cons;
              [vm_compute; reflexivity | vm_compute; reflexivity |]).
      apply segments_ok_nil.
    + reflexivity.
  - vm_compute; repeat split; reflexivity.
Defined.

(** X18. When [SmartCardConnection.connect] raises, at the connection of
    the channel or at the reading of the ATR, nothing is transmitted and
    the connection object, which exists by then, is released.
    [read_card] raises the exception of [connect] when the release
    returns, and the exception of the release when the release raises. *)
Theorem connect_failure_releases {S : Type} (dev : device S) (s0 : S)
  (wc w1 : world S) (e : exn) :
  createConnection dev (init_world s0) = (wc, Ok tt) ->
  connect dev new_SmartCardConnection wc = (w1, Raise e) ->
  read_card dev (init_world s0)
  = ({| dstate := fst (dev_disconnect dev (dstate w1));
        trace := trace w1 ++ [EvDisconnect] |},
     match snd (dev_disconnect dev (dstate w1)) with
     | None => Raise e
     | Some kind => Raise (PyError kind)
     end)
  /\ (trace w1 = [EvCreateConnection; EvConnect]
      \/ trace w1 = [EvCreateConnection; EvConnect; EvGetATRRaised]).
Proof.
  intros Hc Hk.
  pose proof (createConnection_trace _ _ _ _ Hc) as Htc; simpl in Htc.
  split.
  - unfold read_card; rewrite Hc, finally_disconnect_run.
    rewrite read_card_body_run, Hk; reflexivity.
  - rewrite connect_run in Hk.
    destruct (dev_connect dev (dstate wc)) as [s1 [k|]].
    + injection Hk as <- _; left; cbn [trace]; rewrite Htc; reflexivity.
    + destruct (dev_getATR dev s1) as [atr|k]; [discriminate|].
      injection Hk as <- _; right; cbn [trace]; rewrite Htc; reflexivity.
Qed.

Lemma connect_failure_releases_witness :
  read_card
    {| dev_createConnection := fun s : unit => (s, None);
       dev_connect := fun s => (s, None);
       dev_getATR := fun _ => ATRRaise "CardConnectionException";
       dev_transmit := fun s _ => (s, TxRaise "NoCardException");
       dev_disconnect := fun s => (s, None) |}
    (init_world tt)
  = ({| dstate := tt;
        trace := [EvCreateConnection; EvConnect; EvGetATRRaised;
                  EvDisconnect] |},
     Raise (PyError "CardConnectionException")).
Proof.
  destruct (connect_failure_releases
              {| dev_createConnection := fun s : unit => (s, None);
                 dev_connect := fun s => (s, None);
                 dev_getATR := fun _ => ATRRaise "CardConnectionException";
                 dev_transmit := fun s _ => (s, TxRaise "NoCardException");
                 dev_disconnect := fun s => (s, None) |}
              tt
              {| dstate := tt; trace := [EvCreateConnection] |}
              {| dstate := tt;
                 trace := [EvCreateConnection; EvConnect; EvGetATRRaised] |}
              (PyError "CardConnectionException") eq_refl eq_refl)
    as [Hrun _].
  exact Hrun.
Defined.

(** X19. Bytes that stand for Thai characters ([A1..DA] and [DF..FB])
    come out of the legacy-text decoder as the characters of the Thai
    block, [U+0E01..U+0E3A] and [U+0E3F..U+0E5B], one for one: the code
    point is the byte plus [0x0D60]. No replacement character appears
    and nothing is stripped. *)
Theorem thai2unicode_thai_block (data : list Z) :
  forallb thai_byte data = true ->
  thai2unicode data = Ok (map (fun b => Z.to_N (b + 0x0D60)) data).
Proof.
  intros H.
  assert (Hall : forall b, In b data ->
             0xA1 <= b <= 0xDA \/ 0xDF <= b <= 0xFB).
  { intros b Hb; rewrite forallb_forall in H; specialize (H b Hb).
    unfold thai_byte in H.
    apply orb_true_iff in H; destruct H as [H|H];
      apply andb_true_iff in H; destruct H as [H1 H2];
      apply Z.leb_le in H1, H2; [left | right]; lia. }
  unfold thai2unicode.
  rewrite bytes_of_in_range
    by (apply Forall_forall; intros b Hb; specialize (Hall b Hb); lia).
  f_equal.
  assert (Hdec : replace HASH SPACE (decode_tis_620_replace data)
                 = map (fun b => Z.to_N (b + 0x0D60)) data).
  { unfold replace, decode_tis_620_replace; rewrite map_map.
    apply map_ext_in; intros b Hb; specialize (Hall b Hb).
    unfold tis_620_decoding_table.
    replace ((0x00 <=? b) && (b <=? 0x9F)) with false
      by (symmetry; apply andb_false_iff; right; apply Z.leb_gt; lia).
    assert (Hh : (Z.to_N (b + 0x0D60) =? HASH)%N = false)
      by (apply N.eqb_neq; unfold HASH; lia).
    destruct Hall as [Hr|Hr].
    - replace ((0xA1 <=? b) && (b <=? 0xDA)) with true
        by (symmetry; apply andb_true_iff; split; apply Z.leb_le; lia).
      rewrite Hh; reflexivity.
    - replace ((0xA1 <=? b) && (b <=? 0xDA)) with false
        by (symmetry; apply andb_false_iff; right; apply Z.leb_gt; lia).
      replace ((0xDF <=? b) && (b <=? 0xFB)) with true
        by (symmetry; apply andb_true_iff; split; apply Z.leb_le; lia).
      rewrite Hh; reflexivity. }
  rewrite Hdec; apply strip_fix.
  assert (Hns : forall c, In c (map (fun b => Z.to_N (b + 0x0D60)) data) ->
             isspace c = false).
  { intros c Hc; apply in_map_iff in Hc; destruct Hc as (b & <- & Hb).
    specialize (Hall b Hb); unfold isspace.
    repeat (apply orb_false_iff; split);
      try (apply andb_false_iff);
      try (apply N.eqb_neq; lia);
      try (left; apply N.leb_gt; lia);
      try (right; apply N.leb_gt; lia). }
  apply no_outer_space_ends.
  - intros c t Heq; apply Hns; rewrite Heq; left; reflexivity.
  - intros t c Heq; apply Hns; rewrite Heq.
    apply in_or_app; right; left; reflexivity.
Qed.

Lemma thai2unicode_thai_block_witness :
  thai2unicode [0xA1; 0xD2; 0xC3] = Ok [0x0E01; 0x0E32; 0x0E23]%N.
Proof.
  exact (thai2unicode_thai_block [0xA1; 0xD2; 0xC3] eq_refl).
Defined.

(** X20. The append of a photo segment to the buffer is inside the
    [try] statement but is not protected by it: when a segment read
    succeeds and its data holds an item that is not a byte, the
    [ValueError] of the append is not absorbed, the segments read so far
    are lost and the [try] block of [read_card] raises that
    [ValueError]. [read_card] raises it when the release returns, and
    the exception of the release when the release raises. *)
Theorem photo_non_byte_segment_fails_read {S : Type} (dev : device S) (s0 : S)
  (wc w1 w2 w3 w4 : world S) (conn : SmartCardConnection)
  (card_data : IDCardData) (ds : list (list Z)) (d : list Z) :
  createConnection dev (init_world s0) = (wc, Ok tt) ->
  open_session dev new_SmartCardConnection wc = (w1, Ok conn) ->
  read_fields dev conn commands new_IDCardData w1 = (w2, Ok card_data) ->
  segments_ok dev conn 1 ds w2 w3 ->
  (List.length ds < 20)%nat ->
  _get_data_with_get_response dev conn
    (photo_segment_cmd (Z.of_nat (Datatypes.S (List.length ds)))) w3
  = (w4, Ok d) ->
  forallb in_byte_range d = false ->
  read_card_body dev new_SmartCardConnection wc
  = (w4, Raise (PyError "ValueError"))
  /\ read_card dev (init_world s0)
     = ({| dstate := fst (dev_disconnect dev (dstate w4));
           trace := trace w4 ++ [EvDisconnect] |},
        match snd (dev_disconnect dev (dstate w4)) with
        | None => Raise (PyError "ValueError")
        | Some kind => Raise (PyError kind)
        end).
Proof.
  intros Hc Ho Hf Hok Hlt Hread Hbad.
  assert (Htry : photo_segment_try dev conn
                   (Z.of_nat (Datatypes.S (List.length ds)))
                   (List.concat ds) w3
                 = (w4, Raise (PyError "ValueError"))).
  { unfold photo_segment_try, bind, lift, bytearray_extend; cbv zeta.
    rewrite Hread, Hbad; reflexivity. }
  pose proof (photo_loop_stops dev conn 20 ds w2 w3 w4 _ Hok Hlt Htry)
    as Hloop.
  split.
  - unfold read_card_body, bind; rewrite Ho, Hf.
    unfold _read_photo, bind; rewrite Hloop; reflexivity.
  - rewrite (read_card_run dev s0 wc w1 conn Hc Ho), Hf.
    unfold _read_photo, bind; rewrite Hloop; reflexivity.
Qed.

Lemma photo_non_byte_segment_fails_read_witness :
  snd (read_card sim_device
         (sim_start [0x3B; 0x68]
            (sim_fields_script [0x31]
               ++ [Response [] 0x90 0x00; Response (repeat 0x41 255) 0x90 0x00;
                   Response [] 0x90 0x00; Response [0x42; -1] 0x90 0x00])))
  = Raise (PyError "ValueError").
Proof.
  edestruct (@photo_non_byte_segment_fails_read sim sim_device
               {| sim_atr := [0x3B; 0x68];
                  sim_script :=
                    sim_fields_script [0x31]
                    ++ [Response [] 0x90 0x00;
                        Response (repeat 0x41 255) 0x90 0x00;
                        Response [] 0x90 0x00; Response [0x42; -1] 0x90 0x00] |})
    with (ds := [repeat 0x41 255]) (d := [0x42; -1]) as [_ Hrun].
  - vm_compute; reflexivity.
  - vm_compute; reflexivity.
  - vm_compute; reflexivity.
  - eapply segments_ok_cons; [vm_compute; reflexivity | reflexivity |].
    apply segments_ok_nil.
  - simpl; lia.
  - vm_compute; reflexivity.
  - reflexivity.
  - unfold sim_start; rewrite Hrun; reflexivity.
Defined.
